(** * app-build: configuration resolution, version bump and fingerprint cache

    A shallow embedding of the configuration parser and merger
    (config/schema, config/defaults, config/parser), of the version bump
    (version/bump: the strategies and the updates of the native project
    files), of the fingerprint (fingerprint/compute, fingerprint/cache) and
    of the environment input and the version bump of the pipelines (index),
    with the properties the specification states about them and further
    properties of the code.

    Conventions of the embedding:
    - a JavaScript object is the list of its own enumerable properties in
      [Object.keys] order; a property is looked up among the own
      properties;
    - a thrown [Error] is the [Throw] outcome carrying its message;
    - a JavaScript number that holds an integer is the mathematical
      integer, which is what the language computes as long as magnitudes
      stay below 2^53, where build counters and version components live;
      a number that is not an integer is kept opaque, and a conversion that
      would have to compute with one answers [None];
    - a text is the string of its characters, taken among those with a
      code below 256, where the white space, the digits and the words the
      code looks for are;
    - logging calls ([core.info], [core.warning], [core.setOutput]) do not
      influence any result and are not represented. *)

From Stdlib Require Import ZArith List String Ascii Bool Lia.
From Stdlib Require Import DecimalString DecimalZ DecimalPos.
Import ListNotations.
Open Scope string_scope.
Local Set Warnings "-register-all".

(** ** Outcomes of a call: a value or a thrown error *)

Inductive outcome (A : Type) : Type :=
| Return (a : A)
| Throw (message : string).
Arguments Return {A} a.
Arguments Throw {A} message.

Definition bind {A B : Type} (c : outcome A) (k : A -> outcome B) : outcome B :=
  match c with
  | Return a => k a
  | Throw m => Throw m
  end.

Notation "x <- c ;; k" := (bind c (fun x => k))
  (at level 61, c at next level, right associativity).

(** ** Strings *)

(** The double quote character, as a one-character string. *)
Definition dquote : string := String (ascii_of_nat 34) EmptyString.

(** [Array.prototype.join] on an array of strings. *)
Fixpoint join (sep : string) (l : list string) : string :=
  match l with
  | [] => ""
  | [s] => s
  | s :: rest => s ++ sep ++ join sep rest
  end.

(** Truthiness of a string: every string but the empty one. *)
Definition truthy (s : string) : bool := negb (s =? "").

(** Truthiness of an optional string: [undefined] and the empty string are
    falsy. *)
Definition truthy_opt (s : option string) : bool :=
  match s with
  | Some s => truthy s
  | None => false
  end.

(** [a || b] on strings. *)
Definition or_else (a b : string) : string := if truthy a then a else b.

(** ** Objects as ordered property lists *)

Module JsObject.

Definition obj (A : Type) : Type := list (string * A).

(** [o[k]]: the own property [k], or [undefined]. *)
Fixpoint get {A : Type} (o : obj A) (k : string) : option A :=
  match o with
  | [] => None
  | (k', v) :: rest => if k' =? k then Some v else get rest k
  end.

(** [Object.keys(o)]. *)
Definition keys {A : Type} (o : obj A) : list string := map fst o.

(** [o[k] = v]: an existing property keeps its place, a new one is
    appended (for keys that are not array indices, as are all the keys
    written here). *)
Fixpoint set {A : Type} (o : obj A) (k : string) (v : A) : obj A :=
  match o with
  | [] => [(k, v)]
  | (k', v') :: rest =>
      if k' =? k then (k', v) :: rest else (k', v') :: set rest k v
  end.

End JsObject.
Import JsObject.

(** ** config/schema: the typed configuration *)

Inductive Platform : Type := ios | android.

(** The platform as the string the code compares and prints. *)
Definition platformName (p : Platform) : string :=
  match p with
  | ios => "ios"
  | android => "android"
  end.

Inductive ExportMethod : Type := development | ad_hoc | app_store | enterprise.
Inductive BuildType : Type := debug | release.
Inductive Track : Type := track_internal | track_alpha | track_beta | track_production.
Inductive MatchType : Type := appstore | adhoc | match_development.
Inductive MatchStorage : Type := storage_git | storage_s3 | storage_google_cloud.
Inductive UpdatesStorageType : Type := s3 | gcs | custom.
Inductive VersionStrategy : Type := app_json | git_tag | git_commit_count | timestamp.

(** [IosBuildConfig].  The schema makes [scheme] a string; the merger builds
    a default object whose [scheme] is [undefined as unknown as string], so a
    value of this type can hold no scheme. *)
Record IosBuildConfig : Type := {
  scheme : option string;
  buildConfiguration : string;
  exportMethod : ExportMethod
}.

Record AndroidBuildConfig : Type := {
  buildType : BuildType;
  aab : option bool
}.

Record BuildProfile : Type := {
  profile_ios : option IosBuildConfig;
  profile_android : option AndroidBuildConfig
}.

Record SubmitIos : Type := { ascAppId : string }.
Record SubmitAndroid : Type := { packageName : string; track : Track }.
Record SubmitConfig : Type := {
  submit_ios : option SubmitIos;
  submit_android : option SubmitAndroid
}.

Inductive IosSigning : Type :=
| IosSigningManual
| IosSigningMatch (type : option MatchType) (storage : option MatchStorage)
    (gitUrl : option string) (readonly : option bool).
Inductive AndroidSigning : Type := AndroidSigningManual.
Record SigningConfig : Type := {
  signing_ios : option IosSigning;
  signing_android : option AndroidSigning
}.

Record UpdatesStorage : Type := {
  storage_type : UpdatesStorageType;
  bucket : option string;
  region : option string;
  prefix : option string;
  uploadCommand : option string
}.
Record UpdatesConfig : Type := {
  enabled : bool;
  url : option string;
  updates_storage : option UpdatesStorage
}.

Record VersionConfig : Type := {
  autoIncrement : bool;
  source : option string;
  strategy : option VersionStrategy;
  gitTagPattern : option string
}.

(** [AppBuildConfig].  The schema requires [build]; [parseConfigFile]
    returns [{} as AppBuildConfig] when there is no file, so [build] can be
    missing from a value of this type. *)
Record AppBuildConfig : Type := {
  build : option (obj BuildProfile);
  submit : option SubmitConfig;
  signing : option SigningConfig;
  updates : option UpdatesConfig;
  version : option VersionConfig
}.

(** The empty object [{}] as an [AppBuildConfig]. *)
Definition emptyConfig : AppBuildConfig :=
  {| build := None; submit := None; signing := None; updates := None;
     version := None |}.

(** ** config/defaults *)

Definition DEFAULT_PROFILE : string := "production".
Definition DEFAULT_CONFIG_PATH : string := "./app-build.json".
Definition DEFAULT_NODE_VERSION : string := "20".
Definition DEFAULT_FASTLANE_VERSION : string := "latest".
Definition DEFAULT_ANDROID_TRACK : Track := track_internal.
Definition DEFAULT_IOS_EXPORT_METHOD : ExportMethod := app_store.
Definition DEFAULT_IOS_BUILD_CONFIGURATION : string := "Release".
Definition DEFAULT_ANDROID_BUILD_TYPE : BuildType := release.
Definition DEFAULT_ANDROID_AAB : bool := true.
Definition DEFAULT_VERSION_SOURCE : string := "app.json".

(** ** config/parser: action inputs and the resolved configuration *)

Record Credentials : Type := {
  iosCertificateP12 : option string;
  iosCertificatePassword : option string;
  iosProvisioningProfile : option string;
  iosExtensionProfiles : option string;
  matchPassword : option string;
  matchGitPrivateKey : option string;
  ascApiKeyId : option string;
  ascApiIssuerId : option string;
  ascApiKeyP8 : option string;
  androidKeystore : option string;
  androidKeystorePassword : option string;
  androidKeyAlias : option string;
  androidKeyPassword : option string;
  googlePlayServiceAccount : option string
}.

Record ActionInputs : Type := {
  in_platform : Platform;
  in_profile : string;
  in_submit : bool;
  in_ota : bool;
  in_versionBump : bool;
  in_cache : bool;
  in_fingerprint : bool;
  in_skipPrebuild : bool;
  in_prebuildClean : bool;
  in_nodeVersion : string;
  in_fastlaneVersion : string;
  in_xcodeVersion : option string;
  in_versionStrategy : option string;
  in_versionGitTagPattern : option string;
  in_iosScheme : option string;
  in_iosBuildConfiguration : option string;
  in_iosCertificateP12 : option string;
  in_iosCertificatePassword : option string;
  in_iosProvisioningProfile : option string;
  in_iosExtensionProfiles : option string;
  in_matchPassword : option string;
  in_matchGitPrivateKey : option string;
  in_ascApiKeyId : option string;
  in_ascApiIssuerId : option string;
  in_ascApiKeyP8 : option string;
  in_androidKeystore : option string;
  in_androidKeystorePassword : option string;
  in_androidKeyAlias : option string;
  in_androidKeyPassword : option string;
  in_googlePlayServiceAccount : option string
}.

Record ResolvedConfig : Type := {
  rc_platform : Platform;
  rc_profile : string;
  rc_ios : option IosBuildConfig;
  rc_android : option AndroidBuildConfig;
  rc_submit : bool;
  rc_ota : bool;
  rc_versionBump : bool;
  rc_cache : bool;
  rc_fingerprint : bool;
  rc_skipPrebuild : bool;
  rc_prebuildClean : bool;
  rc_nodeVersion : string;
  rc_fastlaneVersion : string;
  rc_xcodeVersion : option string;
  rc_submitConfig : option SubmitConfig;
  rc_signingConfig : option SigningConfig;
  rc_updatesConfig : option UpdatesConfig;
  rc_versionConfig : option VersionConfig;
  rc_versionStrategy : option string;
  rc_versionGitTagPattern : option string;
  rc_credentials : Credentials
}.

(** The type of [profile[platform]]. *)
Definition PlatformConfig (p : Platform) : Type :=
  match p with
  | ios => IosBuildConfig
  | android => AndroidBuildConfig
  end.

(** [profile[platform]]. *)
Definition profilePlatform (profile : BuildProfile) (p : Platform)
  : option (PlatformConfig p) :=
  match p with
  | ios => profile_ios profile
  | android => profile_android profile
  end.

(** The platforms a profile configures, as the error message lists them:
    [[profile.ios ? 'ios' : null, profile.android ? 'android' : null]
     .filter(Boolean)]. *)
Definition configuredPlatforms (profile : BuildProfile) : list string :=
  (match profile_ios profile with Some _ => ["ios"] | None => [] end)
  ++ (match profile_android profile with Some _ => ["android"] | None => [] end).

Definition profileNotFound (profileName available : string) : string :=
  "Build profile " ++ dquote ++ profileName ++ dquote
  ++ " not found. Available profiles: " ++ available.

Definition platformNotConfigured (platform profileName configured : string)
  : string :=
  "Platform " ++ dquote ++ platform ++ dquote
  ++ " is not configured in profile " ++ dquote ++ profileName ++ dquote
  ++ ". " ++ "Configured platforms: " ++ or_else configured "none".

Definition getProfileConfig (config : AppBuildConfig) (profileName : string)
  (platform : Platform) : outcome (option (PlatformConfig platform)) :=
  match build config with
  | None => Return None
  | Some profiles =>
      match get profiles profileName with
      | None =>
          let available := join ", " (keys profiles) in
          Throw (profileNotFound profileName available)
      | Some profile =>
          match profilePlatform profile platform with
          | None =>
              let configured := join ", " (configuredPlatforms profile) in
              Throw (platformNotConfigured (platformName platform)
                       profileName configured)
          | Some platformConfig => Return (Some platformConfig)
          end
      end
  end.

(** The default objects of [mergeActionInputs]. *)
Definition defaultIos : IosBuildConfig :=
  {| scheme := None;
     buildConfiguration := DEFAULT_IOS_BUILD_CONFIGURATION;
     exportMethod := DEFAULT_IOS_EXPORT_METHOD |}.

Definition defaultAndroid : AndroidBuildConfig :=
  {| buildType := DEFAULT_ANDROID_BUILD_TYPE;
     aab := Some DEFAULT_ANDROID_AAB |}.

(** [a ?? b]. *)
Definition nullish {A : Type} (a : option A) (b : A) : A :=
  match a with
  | Some x => x
  | None => b
  end.

(** [if (inputs.iosScheme) resolved.ios.scheme = inputs.iosScheme]. *)
Definition overrideScheme (input : option string) (c : IosBuildConfig)
  : IosBuildConfig :=
  if truthy_opt input
  then {| scheme := input;
          buildConfiguration := buildConfiguration c;
          exportMethod := exportMethod c |}
  else c.

(** [if (inputs.iosBuildConfiguration)
       resolved.ios.buildConfiguration = inputs.iosBuildConfiguration]. *)
Definition overrideBuildConfiguration (input : option string)
  (c : IosBuildConfig) : IosBuildConfig :=
  match input with
  | Some v =>
      if truthy v
      then {| scheme := scheme c;
              buildConfiguration := v;
              exportMethod := exportMethod c |}
      else c
  | None => c
  end.

Definition mergeActionInputs (config : AppBuildConfig) (inputs : ActionInputs)
  : outcome ResolvedConfig :=
  let profileName := or_else (in_profile inputs) DEFAULT_PROFILE in
  let platform := in_platform inputs in
  platformConfig <- getProfileConfig config profileName platform ;;
  let resolved (i : option IosBuildConfig) (a : option AndroidBuildConfig) :=
    {| rc_platform := platform;
       rc_profile := profileName;
       rc_ios := i;
       rc_android := a;
       rc_submit := in_submit inputs;
       rc_ota := in_ota inputs;
       rc_versionBump := in_versionBump inputs;
       rc_cache := in_cache inputs;
       rc_fingerprint := in_fingerprint inputs;
       rc_skipPrebuild := in_skipPrebuild inputs;
       rc_prebuildClean := in_prebuildClean inputs;
       rc_nodeVersion := or_else (in_nodeVersion inputs) DEFAULT_NODE_VERSION;
       rc_fastlaneVersion :=
         or_else (in_fastlaneVersion inputs) DEFAULT_FASTLANE_VERSION;
       rc_xcodeVersion := in_xcodeVersion inputs;
       rc_submitConfig := submit config;
       rc_signingConfig := signing config;
       rc_updatesConfig := updates config;
       rc_versionConfig :=
         match version config with
         | Some v =>
             Some {| autoIncrement := autoIncrement v;
                     source := Some (nullish (source v) DEFAULT_VERSION_SOURCE);
                     strategy := strategy v;
                     gitTagPattern := gitTagPattern v |}
         | None => None
         end;
       rc_versionStrategy := in_versionStrategy inputs;
       rc_versionGitTagPattern := in_versionGitTagPattern inputs;
       rc_credentials :=
         {| iosCertificateP12 := in_iosCertificateP12 inputs;
            iosCertificatePassword := in_iosCertificatePassword inputs;
            iosProvisioningProfile := in_iosProvisioningProfile inputs;
            iosExtensionProfiles := in_iosExtensionProfiles inputs;
            matchPassword := in_matchPassword inputs;
            matchGitPrivateKey := in_matchGitPrivateKey inputs;
            ascApiKeyId := in_ascApiKeyId inputs;
            ascApiIssuerId := in_ascApiIssuerId inputs;
            ascApiKeyP8 := in_ascApiKeyP8 inputs;
            androidKeystore := in_androidKeystore inputs;
            androidKeystorePassword := in_androidKeystorePassword inputs;
            androidKeyAlias := in_androidKeyAlias inputs;
            androidKeyPassword := in_androidKeyPassword inputs;
            googlePlayServiceAccount := in_googlePlayServiceAccount inputs |}
    |} in
  Return
    (match platform as p
       return option (PlatformConfig p) -> ResolvedConfig with
     | ios => fun platformConfig =>
         let c := nullish platformConfig defaultIos in
         let c := overrideScheme (in_iosScheme inputs) c in
         let c := overrideBuildConfiguration (in_iosBuildConfiguration inputs) c in
         resolved (Some c) None
     | android => fun platformConfig =>
         resolved None (Some (nullish platformConfig defaultAndroid))
     end platformConfig).

(** ** JSON values and the conversions the code applies to them *)

(** A JSON number: an integer, or a number that is not an integer, kept as
    the literal that denotes it. *)
Inductive jnum : Type :=
| JInt (z : Z)
| JOther (literal : string).

Inductive json : Type :=
| JNull
| JBool (b : bool)
| JNum (n : jnum)
| JStr (s : string)
| JArr (items : list json)
| JObj (props : list (string * json)).

(** The numbers the model computes with. *)
Inductive number : Type :=
| Finite (z : Z)
| PosInfinity
| NegInfinity
| NaN.


(** [String(z)] for an integer. *)
Definition integerToString (z : Z) : string :=
  NilZero.string_of_int (Z.to_int z).

(** [String(n)]. *)
Definition NumberToString (n : number) : string :=
  match n with
  | Finite z => integerToString z
  | PosInfinity => "Infinity"
  | NegInfinity => "-Infinity"
  | NaN => "NaN"
  end.

(** White space and line terminators among the characters of a string
    (tab, line feed, vertical tab, form feed, carriage return, space,
    no-break space). *)
Definition isWhiteSpace (c : ascii) : bool :=
  let n := nat_of_ascii c in
  ((9 <=? n) && (n <=? 13) || (n =? 32) || (n =? 160))%nat.

Definition isDigit (c : ascii) : bool :=
  let n := nat_of_ascii c in ((48 <=? n) && (n <=? 57))%nat.

(** The value of a digit in a radix up to 16, when it is one. *)
Definition digitValue (radix : nat) (c : ascii) : option Z :=
  let n := nat_of_ascii c in
  let v :=
    if ((48 <=? n) && (n <=? 57))%nat then Some (n - 48)%nat
    else if ((97 <=? n) && (n <=? 102))%nat then Some (n - 87)%nat
    else if ((65 <=? n) && (n <=? 70))%nat then Some (n - 55)%nat
    else None in
  match v with
  | Some d => if (d <? radix)%nat then Some (Z.of_nat d) else None
  | None => None
  end.

Fixpoint dropWhile {A : Type} (f : A -> bool) (l : list A) : list A :=
  match l with
  | [] => []
  | x :: rest => if f x then dropWhile f rest else l
  end.

Fixpoint takeWhile {A : Type} (f : A -> bool) (l : list A) : list A :=
  match l with
  | [] => []
  | x :: rest => if f x then x :: takeWhile f rest else []
  end.

(** [s.trim()], on the list of characters. *)
Definition trimChars (l : list ascii) : list ascii :=
  rev (dropWhile isWhiteSpace (rev (dropWhile isWhiteSpace l))).

(** [s.trim()]. *)
Definition trim (s : string) : string :=
  string_of_list_ascii (trimChars (list_ascii_of_string s)).

(** The integer written by a list of digits of the given radix, most
    significant first; [None] when a character is not such a digit. *)
Fixpoint digitsValue (radix : nat) (acc : Z) (l : list ascii) : option Z :=
  match l with
  | [] => Some acc
  | c :: rest =>
      match digitValue radix c with
      | Some d => digitsValue radix (acc * Z.of_nat radix + d) rest
      | None => None
      end
  end.

(** [NonDecimalIntegerLiteral]: [0x], [0o] or [0b] and at least one digit. *)
Definition nonDecimalLiteral (l : list ascii) : option Z :=
  match l with
  | "0"%char :: r :: d :: rest =>
      let radix :=
        if ((r =? "x") || (r =? "X"))%char then Some 16%nat
        else if ((r =? "o") || (r =? "O"))%char then Some 8%nat
        else if ((r =? "b") || (r =? "B"))%char then Some 2%nat
        else None in
      match radix with
      | Some radix => digitsValue radix 0 (d :: rest)
      | None => None
      end
  | _ => None
  end.

(** [ExponentPart]: [e] or [E], an optional sign, and at least one digit. *)
Definition isExponentPart (l : list ascii) : bool :=
  match l with
  | e :: rest =>
      let digits :=
        match rest with
        | s :: more => if ((s =? "+") || (s =? "-"))%char then more else rest
        | [] => []
        end in
      ((e =? "e") || (e =? "E"))%char
      && negb (Nat.eqb (List.length digits) 0) && forallb isDigit digits
  | [] => false
  end.

(** What a [StrUnsignedDecimalLiteral] is, apart from [Infinity]. *)
Inductive decimalShape : Type :=
| IntegerLiteral (z : Z)   (* digits only *)
| FractionalLiteral        (* with a dot or an exponent *)
| NotALiteral.

Definition unsignedDecimal (l : list ascii) : decimalShape :=
  let intPart := takeWhile isDigit l in
  let rest := dropWhile isDigit l in
  match rest with
  | [] =>
      match intPart with
      | [] => NotALiteral
      | _ => match digitsValue 10 0 intPart with
             | Some z => IntegerLiteral z
             | None => NotALiteral
             end
      end
  | c :: rest' =>
      if (c =? ".")%char then
        let fracPart := takeWhile isDigit rest' in
        let tail := dropWhile isDigit rest' in
        match intPart, fracPart with
        | [], [] => NotALiteral
        | _, _ =>
            match tail with
            | [] => FractionalLiteral
            | _ => if isExponentPart tail then FractionalLiteral
                   else NotALiteral
            end
        end
      else
        match intPart with
        | [] => NotALiteral
        | _ => if isExponentPart rest then FractionalLiteral else NotALiteral
        end
  end.

Definition Infinity_chars : list ascii := list_ascii_of_string "Infinity".

(** [StrDecimalLiteral] after an optional sign; [negative] tells the sign. *)
Definition signedDecimal (negative : bool) (l : list ascii)
  : option number :=
  if list_eq_dec ascii_dec l Infinity_chars
  then Some (if negative then NegInfinity else PosInfinity)
  else match unsignedDecimal l with
       | IntegerLiteral z => Some (Finite (if negative then - z else z))
       | FractionalLiteral => None
       | NotALiteral => Some NaN
       end.

(** [Number(s)] for a string ([StringToNumber] of the language): [None]
    when [s] denotes a number with a dot or an exponent. *)
Definition StringToNumber (s : string) : option number :=
  match trimChars (list_ascii_of_string s) with
  | [] => Some (Finite 0)
  | c :: rest =>
      if (c =? "+")%char then signedDecimal false rest
      else if (c =? "-")%char then signedDecimal true rest
      else match nonDecimalLiteral (c :: rest) with
           | Some z => Some (Finite z)
           | None => signedDecimal false (c :: rest)
           end
  end.

Definition optionMap2 {A B C : Type} (f : A -> B -> C)
  (a : option A) (b : option B) : option C :=
  match a, b with
  | Some a, Some b => Some (f a b)
  | _, _ => None
  end.

(** [String(v)], as a template literal computes it; an array is the
    comma-separated list of its elements, [null] elements being empty. *)
Fixpoint ToString (v : json) : option string :=
  match v with
  | JNull => Some "null"
  | JBool true => Some "true"
  | JBool false => Some "false"
  | JNum (JInt z) => Some (integerToString z)
  | JNum (JOther _) => None
  | JStr s => Some s
  | JArr items =>
      let element (e : json) : option string :=
        match e with
        | JNull => Some ""
        | _ => ToString e
        end in
      (fix elements (l : list json) : option string :=
         match l with
         | [] => Some ""
         | [e] => element e
         | e :: rest =>
             optionMap2 (fun a b => a ++ "," ++ b) (element e) (elements rest)
         end) items
  | JObj _ => Some "[object Object]"
  end.

(** [Number(v)]; [None] when the value lies outside the integer fragment. *)
Definition ToNumber (v : json) : option number :=
  match v with
  | JNull => Some (Finite 0)
  | JBool true => Some (Finite 1)
  | JBool false => Some (Finite 0)
  | JNum (JInt z) => Some (Finite z)
  | JNum (JOther _) => None
  | JStr s => StringToNumber s
  | JArr _ =>
      match ToString v with
      | Some s => StringToNumber s
      | None => None
      end
  | JObj _ => Some NaN
  end.

(** [v.k] on a value that is not [null]: a property of an object,
    [undefined] on anything else (none of the keys read here is a property
    of a string, a number, a boolean or an array). *)
Definition property (v : json) (k : string) : option json :=
  match v with
  | JObj props => get props k
  | _ => None
  end.

(** ** Schema validation (the zod schemas of config/schema)

    A schema takes the value found at a key, [None] standing for
    [undefined], and answers the typed data or the list of issues, each with
    the path of the field it is about.  The wording of the messages is the
    validation library's. *)

Record issue : Type := {
  issue_path : list string;
  issue_message : string
}.

Inductive parsed (T : Type) : Type :=
| Valid (data : T)
| Invalid (issues : list issue).
Arguments Valid {T} data.
Arguments Invalid {T} issues.

Definition schema (T : Type) : Type := option json -> parsed T.

(** The name the library gives to the type of an input. *)
Definition receivedType (v : option json) : string :=
  match v with
  | None => "undefined"
  | Some JNull => "null"
  | Some (JBool _) => "boolean"
  | Some (JNum _) => "number"
  | Some (JStr _) => "string"
  | Some (JArr _) => "array"
  | Some (JObj _) => "object"
  end.

Definition invalidType {T : Type} (expected : string) (v : option json)
  : parsed T :=
  Invalid [{| issue_path := [];
              issue_message :=
                "Invalid input: expected " ++ expected ++ ", received "
                ++ receivedType v |}].

(** Issues found under key [k] get [k] in front of their path. *)
Definition under {T : Type} (k : string) (r : parsed T) : parsed T :=
  match r with
  | Valid d => Valid d
  | Invalid issues =>
      Invalid (map (fun i => {| issue_path := k :: issue_path i;
                                issue_message := issue_message i |}) issues)
  end.

(** Fields of an object are all validated; the issues of all of them are
    reported together. *)
Definition ap {A B : Type} (f : parsed (A -> B)) (x : parsed A) : parsed B :=
  match f, x with
  | Valid f, Valid x => Valid (f x)
  | Valid _, Invalid j => Invalid j
  | Invalid i, Valid _ => Invalid i
  | Invalid i, Invalid j => Invalid (i ++ j)
  end.

Notation "f <*> x" := (ap f x) (at level 52, left associativity).

Definition z_string : schema string := fun v =>
  match v with
  | Some (JStr s) => Valid s
  | _ => invalidType "string" v
  end.

Definition z_boolean : schema bool := fun v =>
  match v with
  | Some (JBool b) => Valid b
  | _ => invalidType "boolean" v
  end.

Fixpoint lookupOption {T : Type} (options : list (string * T)) (s : string)
  : option T :=
  match options with
  | [] => None
  | (name, t) :: rest => if name =? s then Some t else lookupOption rest s
  end.

(** [z.enum([...])]: one of the listed strings. *)
Definition z_enum {T : Type} (options : list (string * T)) : schema T :=
  fun v =>
    let failure :=
      Invalid [{| issue_path := [];
                  issue_message :=
                    "Invalid option: expected one of "
                    ++ join "|" (map (fun o => dquote ++ fst o ++ dquote)
                                   options) |}] in
    match v with
    | Some (JStr s) =>
        match lookupOption options s with
        | Some t => Valid t
        | None => failure
        end
    | _ => failure
    end.

(** [z.literal(s)]. *)
Definition z_literal (s : string) : schema unit := fun v =>
  match v with
  | Some (JStr s') =>
      if s' =? s then Valid tt
      else Invalid [{| issue_path := [];
                       issue_message :=
                         "Invalid input: expected " ++ dquote ++ s ++ dquote |}]
  | _ => Invalid [{| issue_path := [];
                     issue_message :=
                       "Invalid input: expected " ++ dquote ++ s ++ dquote |}]
  end.

(** [s.optional()]: [undefined] is accepted. *)
Definition z_optional {T : Type} (s : schema T) : schema (option T) :=
  fun v =>
    match v with
    | None => Valid None
    | Some _ =>
        match s v with
        | Valid d => Valid (Some d)
        | Invalid i => Invalid i
        end
    end.

(** [z.object({...})]: the input must be an object that is not an array;
    [fields] validates its properties, unknown keys being dropped. *)
Definition z_object {T : Type} (fields : obj json -> parsed T) : schema T :=
  fun v =>
    match v with
    | Some (JObj props) => fields props
    | _ => invalidType "object" v
    end.

(** The key [k] of the shape of an object under validation. *)
Definition shape {T : Type} (props : obj json) (k : string) (s : schema T)
  : parsed T :=
  under k (s (get props k)).

(** [z.union([a, b])]: the first schema that accepts the input. *)
Definition z_union {T : Type} (a b : schema T) : schema T := fun v =>
  match a v with
  | Valid d => Valid d
  | Invalid _ =>
      match b v with
      | Valid d => Valid d
      | Invalid _ =>
          Invalid [{| issue_path := []; issue_message := "Invalid input" |}]
      end
  end.

(** [z.record(z.string(), s)]: every property of the object is validated
    by [s]. *)
Definition z_record {T : Type} (s : schema T) : schema (obj T) := fun v =>
  match v with
  | Some (JObj props) =>
      (fix entries (l : obj json) : parsed (obj T) :=
         match l with
         | [] => Valid []
         | (k, x) :: rest =>
             Valid (fun d r => (k, d) :: r)
               <*> under k (s (Some x)) <*> entries rest
         end) props
  | _ => invalidType "record" v
  end.

Definition IosBuildConfigSchema : schema IosBuildConfig :=
  z_object (fun o =>
    Valid (fun s b e =>
             {| scheme := Some s; buildConfiguration := b; exportMethod := e |})
      <*> shape o "scheme" z_string
      <*> shape o "buildConfiguration" z_string
      <*> shape o "exportMethod"
            (z_enum [("development", development); ("ad-hoc", ad_hoc);
                     ("app-store", app_store); ("enterprise", enterprise)])).

Definition AndroidBuildConfigSchema : schema AndroidBuildConfig :=
  z_object (fun o =>
    Valid (fun t a => {| buildType := t; aab := a |})
      <*> shape o "buildType" (z_enum [("debug", debug); ("release", release)])
      <*> shape o "aab" (z_optional z_boolean)).

Definition BuildProfileSchema : schema BuildProfile :=
  z_object (fun o =>
    Valid (fun i a => {| profile_ios := i; profile_android := a |})
      <*> shape o "ios" (z_optional IosBuildConfigSchema)
      <*> shape o "android" (z_optional AndroidBuildConfigSchema)).

Definition SubmitConfigSchema : schema SubmitConfig :=
  z_object (fun o =>
    Valid (fun i a => {| submit_ios := i; submit_android := a |})
      <*> shape o "ios"
            (z_optional (z_object (fun o =>
               Valid (fun a => {| ascAppId := a |})
                 <*> shape o "ascAppId" z_string)))
      <*> shape o "android"
            (z_optional (z_object (fun o =>
               Valid (fun p t => {| packageName := p; track := t |})
                 <*> shape o "packageName" z_string
                 <*> shape o "track"
                       (z_enum [("internal", track_internal);
                                ("alpha", track_alpha); ("beta", track_beta);
                                ("production", track_production)]))))).

Definition IosSigningManualSchema : schema IosSigning :=
  z_object (fun o =>
    Valid (fun _ : unit => IosSigningManual)
      <*> shape o "method" (z_literal "manual")).

Definition IosSigningMatchSchema : schema IosSigning :=
  z_object (fun o =>
    Valid (fun (_ : unit) t s g r => IosSigningMatch t s g r)
      <*> shape o "method" (z_literal "match")
      <*> shape o "type"
            (z_optional (z_enum [("appstore", appstore); ("adhoc", adhoc);
                                 ("development", match_development)]))
      <*> shape o "storage"
            (z_optional (z_enum [("git", storage_git); ("s3", storage_s3);
                                 ("google_cloud", storage_google_cloud)]))
      <*> shape o "gitUrl" (z_optional z_string)
      <*> shape o "readonly" (z_optional z_boolean)).

Definition IosSigningSchema : schema IosSigning :=
  z_union IosSigningManualSchema IosSigningMatchSchema.

Definition AndroidSigningSchema : schema AndroidSigning :=
  z_object (fun o =>
    Valid (fun _ : unit => AndroidSigningManual)
      <*> shape o "method" (z_literal "manual")).

Definition SigningConfigSchema : schema SigningConfig :=
  z_object (fun o =>
    Valid (fun i a => {| signing_ios := i; signing_android := a |})
      <*> shape o "ios" (z_optional IosSigningSchema)
      <*> shape o "android" (z_optional AndroidSigningSchema)).

Definition UpdatesStorageSchema : schema UpdatesStorage :=
  z_object (fun o =>
    Valid (fun t b r p u =>
             {| storage_type := t; bucket := b; region := r; prefix := p;
                uploadCommand := u |})
      <*> shape o "type" (z_enum [("s3", s3); ("gcs", gcs); ("custom", custom)])
      <*> shape o "bucket" (z_optional z_string)
      <*> shape o "region" (z_optional z_string)
      <*> shape o "prefix" (z_optional z_string)
      <*> shape o "uploadCommand" (z_optional z_string)).

Definition UpdatesConfigSchema : schema UpdatesConfig :=
  z_object (fun o =>
    Valid (fun e u s => {| enabled := e; url := u; updates_storage := s |})
      <*> shape o "enabled" z_boolean
      <*> shape o "url" (z_optional z_string)
      <*> shape o "storage" (z_optional UpdatesStorageSchema)).

Definition VersionStrategySchema : schema VersionStrategy :=
  z_enum [("app-json", app_json); ("git-tag", git_tag);
          ("git-commit-count", git_commit_count); ("timestamp", timestamp)].

Definition VersionConfigSchema : schema VersionConfig :=
  z_object (fun o =>
    Valid (fun a s t g =>
             {| autoIncrement := a; source := s; strategy := t;
                gitTagPattern := g |})
      <*> shape o "autoIncrement" z_boolean
      <*> shape o "source" (z_optional z_string)
      <*> shape o "strategy" (z_optional VersionStrategySchema)
      <*> shape o "gitTagPattern" (z_optional z_string)).

Definition AppBuildConfigSchema : schema AppBuildConfig :=
  z_object (fun o =>
    Valid (fun b s g u v =>
             {| build := Some b; submit := s; signing := g; updates := u;
                version := v |})
      <*> shape o "build" (z_record BuildProfileSchema)
      <*> shape o "submit" (z_optional SubmitConfigSchema)
      <*> shape o "signing" (z_optional SigningConfigSchema)
      <*> shape o "updates" (z_optional UpdatesConfigSchema)
      <*> shape o "version" (z_optional VersionConfigSchema)).

(** ** config/parser: parseConfigFile *)

(** What [parseConfigFile] finds at [configPath]: no file, a file that
    cannot be read, or a text, given by what [JSON.parse] makes of it
    ([None] when it throws). *)
Inductive ConfigFile : Type :=
| NoFile
| ReadFails (message : string)
| Content (parse : option json).

Definition newline : string := String (ascii_of_nat 10) EmptyString.

(** One line of the validation error: the dotted path, or [(root)], and the
    message. *)
Definition fieldError (i : issue) : string :=
  let path :=
    match issue_path i with
    | [] => "(root)"
    | p => join "." p
    end in
  "  - " ++ path ++ ": " ++ issue_message i.

Definition parseConfigFile (configPath : string) (file : ConfigFile)
  : outcome AppBuildConfig :=
  match file with
  | NoFile => Return emptyConfig
  | ReadFails message =>
      Throw ("Failed to read config file at " ++ dquote ++ configPath
             ++ dquote ++ ": " ++ message)
  | Content None =>
      Throw ("Config file " ++ dquote ++ configPath ++ dquote
             ++ " contains invalid JSON")
  | Content (Some j) =>
      match AppBuildConfigSchema (Some j) with
      | Invalid issues =>
          let fieldErrors := map fieldError issues in
          Throw ("Invalid config in " ++ dquote ++ configPath ++ dquote ++ ":"
                 ++ newline ++ join newline fieldErrors)
      | Valid data => Return data
      end
  end.

(** ** version/bump *)

(** A file of the project directory: absent, present but unreadable (the
    message is the one [readFile] rejects with), a text that [JSON.parse]
    rejects (with the message of the syntax error), or the JSON object the
    text denotes; the code types what it parses as
    [Record<string, unknown>].  Writing [JSON.stringify(json, null, 2)] and
    parsing it again gives the same JSON value, so a written file is
    modelled by the object written. *)
Inductive file : Type :=
| Absent
| Unreadable (message : string)
| NotJson (message : string)
| Document (o : obj json).

Definition files : Type := string -> file.

Definition existsSync (fs : files) (path : string) : bool :=
  match fs path with
  | Absent => false
  | _ => true
  end.

(** [JSON.parse(await readFile(path))]. *)
Definition readJson (fs : files) (path : string) : outcome (obj json) :=
  match fs path with
  | Absent =>
      Throw ("ENOENT: no such file or directory, open '" ++ path ++ "'")
  | Unreadable message => Throw message
  | NotJson message => Throw message
  | Document o => Return o
  end.

Definition writeFile (fs : files) (path : string) (o : obj json) : files :=
  fun p => if p =? path then Document o else fs p.

Record BumpResult : Type := {
  previousValue : Z;
  newValue : Z;
  field : string;
  bump_version : option string
}.

Record Version : Type := { major : Z; minor : Z; patch : Z }.

(** [s.split('.')]. *)
Fixpoint splitDot (s : string) : list string :=
  match s with
  | EmptyString => [""]
  | String c rest =>
      if (c =? ".")%char then "" :: splitDot rest
      else match splitDot rest with
           | [] => [String c ""]
           | first :: more => String c first :: more
           end
  end.

(** [current[key]] as the loop of [setNestedValue] leaves it before going
    into it: replaced by [{}] when it is [undefined], [null] or not an
    object. *)
Definition childObject (v : option json) : json :=
  match v with
  | Some (JObj o) => JObj o
  | Some (JArr a) => JArr a
  | _ => JObj []
  end.

(** The loop of [setNestedValue] on the value [current], which is an object
    or an array.  A property set on an array under a key that is not an
    index is not part of what [JSON.stringify] writes, so the array stays as
    it is. *)
Fixpoint setPath (current : json) (keys : list string) (value : json) : json :=
  match current with
  | JObj props =>
      match keys with
      | [] => current
      | [last] => JObj (set props last value)
      | key :: rest =>
          JObj (set props key (setPath (childObject (get props key)) rest value))
      end
  | _ => current
  end.

Definition setNestedValue (o : obj json) (dottedPath : string) (value : json)
  : obj json :=
  match setPath (JObj o) (splitDot dottedPath) value with
  | JObj o' => o'
  | _ => o
  end.

(** [!v] for a JSON value found at a key. *)
Definition falsy (v : option json) : bool :=
  match v with
  | None => true
  | Some JNull => true
  | Some (JBool b) => negb b
  | Some (JNum (JInt z)) => (z =? 0)%Z
  | Some (JNum (JOther _)) => false
  | Some (JStr s) => negb (truthy s)
  | Some (JArr _) => false
  | Some (JObj _) => false
  end.

(** [v?.k]. *)
Definition optionalProperty (v : option json) (k : string) : option json :=
  match v with
  | Some v => property v k
  | None => None
  end.

(** The field the app-json strategy reads for a platform, and the raw value
    found there ([None] for [undefined]). *)
Definition selectField (platform : Platform) (o : obj json)
  : string * option json :=
  let expo :=
    match get o "expo" with
    | None => JObj []
    | Some JNull => JObj []
    | Some v => v
    end in
  match platform with
  | ios =>
      let iosObj := property expo "ios" in
      match optionalProperty iosObj "buildNumber" with
      | Some raw => ("expo.ios.buildNumber", Some raw)
      | None =>
          match property expo "buildNumber" with
          | Some raw => ("expo.buildNumber", Some raw)
          | None => ("expo.ios.buildNumber", None)
          end
      end
  | android =>
      let androidObj := property expo "android" in
      match optionalProperty androidObj "versionCode" with
      | Some raw => ("expo.android.versionCode", Some raw)
      | None =>
          match property expo "versionCode" with
          | Some raw => ("expo.versionCode", Some raw)
          | None => ("expo.android.versionCode", None)
          end
      end
  end.

Definition nonNumeric (field raw : string) : string :=
  field ++ " has non-numeric value " ++ dquote ++ raw ++ dquote.

(** The value written for a build number: a string on iOS, a number on
    Android. *)
Definition encodeBuildNumber (platform : Platform) (n : Z) : json :=
  match platform with
  | ios => JStr (integerToString n)
  | android => JNum (JInt n)
  end.

Section ProjectDirectory.

(** [path.resolve(projectDir, file)]. *)
Variable resolve : string -> string -> string.

(** The result of [npx expo config --type public --json] run in the
    project directory and parsed: the JSON value, or the error of the
    command or of the parser. *)
Variable expoConfig : outcome json.

(** The standard output of [git describe --tags --abbrev=0
    --match=<pattern>], or the error of the command. *)
Variable gitDescribe : string -> outcome string.

Definition resolveExpoConfig (fs : files) (projectDir : string)
  (source : option string) : outcome (obj json * string) :=
  if truthy_opt source then
    let filePath := resolve projectDir (nullish source "") in
    config <- readJson fs filePath ;;
    Return (config, filePath)
  else
    let appJsonPath := resolve projectDir "app.json" in
    let writePath := appJsonPath in
    match readJson fs appJsonPath with
    | Return json => Return (json, writePath)
    | Throw _ =>
        let hasDynamicConfig :=
          existsSync fs (resolve projectDir "app.config.js")
          || existsSync fs (resolve projectDir "app.config.ts") in
        if hasDynamicConfig then
          match expoConfig with
          | Return resolved =>
              let config := [("expo", resolved)] in
              let existingJson :=
                match readJson fs appJsonPath with
                | Return o => o
                | Throw _ => []
                end in
              Return (match keys existingJson with
                      | [] => config
                      | _ => existingJson
                      end, writePath)
          | Throw _ =>
              Throw ("No app.json found and could not resolve dynamic config in "
                     ++ dquote ++ projectDir ++ dquote ++ ". "
                     ++ "Ensure app.json, app.config.js, or app.config.ts exists.")
          end
        else
          Throw ("No app config found in " ++ dquote ++ projectDir ++ dquote
                 ++ ". " ++ "Expected app.json, app.config.js, or app.config.ts.")
    end.

(** The app-json strategy: the result and the files after the write, or
    the error thrown; [None] when the value read is a number outside the
    integer fragment. *)
Definition bumpFromAppJson (platform : Platform) (fs : files)
  (projectDir : string) (source : option string)
  : option (outcome (BumpResult * files)) :=
  match resolveExpoConfig fs projectDir source with
  | Throw m => Some (Throw m)
  | Return (json, writePath) =>
      let '(field, previousRaw) := selectField platform json in
      let previous : option (outcome Z) :=
        match previousRaw with
        | None => Some (Return 0%Z)
        | Some raw =>
            match ToNumber raw with
            | None => None
            | Some (Finite parsed) => Some (Return parsed)
            | Some _ =>
                match ToString raw with
                | Some text => Some (Throw (nonNumeric field text))
                | None => None
                end
            end
        end in
      match previous with
      | None => None
      | Some (Throw m) => Some (Throw m)
      | Some (Return previousValue) =>
          let newValue := (previousValue + 1)%Z in
          let json :=
            setNestedValue json field (encodeBuildNumber platform newValue) in
          Some (Return ({| previousValue := previousValue;
                           newValue := newValue;
                           field := field;
                           bump_version := None |},
                        writeFile fs writePath json))
      end
  end.

(** [tag.match(/(\d+)\.(\d+)\.(\d+)/)] tried at the head of the text: the
    three runs of digits.  The quantifiers are greedy and a shorter run
    would have to be followed by a dot where a digit stands, so the
    longest runs are the only candidates. *)
Definition matchTripleHere (l : list ascii)
  : option (list ascii * list ascii * list ascii) :=
  match takeWhile isDigit l, dropWhile isDigit l with
  | (_ :: _) as a, dot1 :: l1 =>
      match takeWhile isDigit l1, dropWhile isDigit l1 with
      | (_ :: _) as b, dot2 :: l2 =>
          match takeWhile isDigit l2 with
          | (_ :: _) as c =>
              if ((dot1 =? ".") && (dot2 =? "."))%char then Some (a, b, c)
              else None
          | [] => None
          end
      | _, _ => None
      end
  | _, _ => None
  end.

(** The leftmost match. *)
Fixpoint searchTriple (l : list ascii)
  : option (list ascii * list ascii * list ascii) :=
  match matchTripleHere l with
  | Some t => Some t
  | None =>
      match l with
      | [] => None
      | _ :: rest => searchTriple rest
      end
  end.

(** [parseInt(digits, 10)] on a run of digits. *)
Definition parseInt (digits : list ascii) : Z :=
  match digitsValue 10 0 digits with
  | Some z => z
  | None => 0%Z
  end.

Definition parseVersionFromTag (tag : string) : option Version :=
  match searchTriple (list_ascii_of_string tag) with
  | Some (a, b, c) =>
      Some {| major := parseInt a; minor := parseInt b; patch := parseInt c |}
  | None => None
  end.

(** The version the git-tag strategy starts from: [0.0.0] unless the
    latest tag holds a version. *)
Definition previousVersionOf (latestTag : option string) : Version :=
  let zero := {| major := 0; minor := 0; patch := 0 |} in
  if truthy_opt latestTag then
    match parseVersionFromTag (nullish latestTag "") with
    | Some parsed => parsed
    | None => zero
    end
  else zero.

(** The version the git-tag strategy computes from the previous one. *)
Definition nextVersion (previousVersion : Version) : Version :=
  let newVersion :=
    {| major := if (major previousVersion =? 0)%Z then 1%Z
                else major previousVersion;
       minor := minor previousVersion;
       patch := (patch previousVersion
                 + (if (major previousVersion =? 0)%Z then 0 else 1))%Z |} in
  if ((major previousVersion =? 0) && (minor previousVersion =? 0)
      && (patch previousVersion =? 0))%Z
  then {| major := 1; minor := 0; patch := 0 |}
  else newVersion.

Definition versionString (v : Version) : string :=
  integerToString (major v) ++ "." ++ integerToString (minor v) ++ "."
  ++ integerToString (patch v).

Definition buildNumberOf (v : Version) : Z :=
  (major v * 10000 + minor v * 100 + patch v)%Z.

Definition platformField (platform : Platform) : string :=
  match platform with
  | ios => "expo.ios.buildNumber"
  | android => "expo.android.versionCode"
  end.

(** The extra mutation of the git-tag strategy:
    [if (!json.expo) json.expo = {}; json.expo.version = versionString].
    [None] when the assignment throws, [json.expo] being a primitive. *)
Definition setExpoVersion (versionString : string) (doc : obj json)
  : option (obj json) :=
  let doc :=
    if falsy (get doc "expo") then set doc "expo" (JObj []) else doc in
  match get doc "expo" with
  | Some (JObj expo) =>
      Some (set doc "expo" (JObj (set expo "version" (JStr versionString))))
  | Some (JArr _) => Some doc
  | _ => None
  end.

(** [writeVersionToAppJson]: best effort, every failure is swallowed. *)
Definition writeVersionToAppJson (fs : files) (projectDir : string)
  (source : option string) (field : string) (value : json)
  (extraMutations : option (obj json -> option (obj json))) : files :=
  let file := nullish source "app.json" in
  let filePath := resolve projectDir file in
  match readJson fs filePath with
  | Return json =>
      let json := setNestedValue json field value in
      match extraMutations with
      | Some mutate =>
          match mutate json with
          | Some json => writeFile fs filePath json
          | None => fs
          end
      | None => writeFile fs filePath json
      end
  | Throw _ => fs
  end.

Definition bumpFromGitTag (platform : Platform) (fs : files)
  (projectDir : string) (source : option string)
  (gitTagPattern : option string) : BumpResult * files :=
  let pattern := nullish gitTagPattern "v*" in
  let latestTag : option string :=
    match gitDescribe pattern with
    | Return stdout => Some (trim stdout)
    | Throw _ => None
    end in
  let previousVersion := previousVersionOf latestTag in
  let newVersion := nextVersion previousVersion in
  let buildNumber := buildNumberOf newVersion in
  let previousBuildNumber := buildNumberOf previousVersion in
  let field := platformField platform in
  let fs :=
    writeVersionToAppJson fs projectDir source field
      (encodeBuildNumber platform buildNumber)
      (Some (setExpoVersion (versionString newVersion))) in
  ({| previousValue := previousBuildNumber;
      newValue := buildNumber;
      field := field;
      bump_version := Some (versionString newVersion) |}, fs).

End ProjectDirectory.

(** ** fingerprint/cache *)

(** The services the fingerprint cache calls: [fs.mkdirSync(dir,
    {recursive: true})] and [cache.restoreCache(paths, key)], which resolves
    to the key that was hit or to [undefined]. *)
Record CacheServices : Type := {
  mkdirSync : string -> outcome unit;
  restoreCache : list string -> string -> outcome (option string)
}.

Definition cacheKey (platform hash : string) : string :=
  "native-build-" ++ platform ++ "-" ++ hash.

Section Fingerprint.

(** [path.join(os.tmpdir(), 'app-build-fingerprint')]. *)
Variable FINGERPRINT_MARKER_DIR : string.

Definition restoreFingerprintCache (services : CacheServices)
  (platform hash : string) : outcome bool :=
  let key := cacheKey platform hash in
  _ <- mkdirSync services FINGERPRINT_MARKER_DIR ;;
  match restoreCache services [FINGERPRINT_MARKER_DIR] key with
  | Return hit => if truthy_opt hit then Return true else Return false
  | Throw _ => Return false
  end.

End Fingerprint.

(** ** Vocabulary of the statements and example data *)

(** [sub] occurs in [s]. *)
Definition occurs (sub s : string) : Prop :=
  exists before after, s = before ++ sub ++ after.


Definition isSome {A : Type} (a : option A) : bool :=
  match a with
  | Some _ => true
  | None => false
  end.

(** The configuration of the parser's tests. *)
Definition exampleProfiles : obj BuildProfile :=
  [("development",
    {| profile_ios :=
         Some {| scheme := Some "MyApp"; buildConfiguration := "Debug";
                 exportMethod := development |};
       profile_android := Some {| buildType := debug; aab := None |} |});
   ("production",
    {| profile_ios :=
         Some {| scheme := Some "MyApp"; buildConfiguration := "Release";
                 exportMethod := app_store |};
       profile_android := Some {| buildType := release; aab := Some true |} |});
   ("ios-only",
    {| profile_ios :=
         Some {| scheme := Some "MyApp"; buildConfiguration := "Release";
                 exportMethod := ad_hoc |};
       profile_android := None |});
   ("empty", {| profile_ios := None; profile_android := None |})].

Definition exampleConfig : AppBuildConfig :=
  {| build := Some exampleProfiles; submit := None; signing := None;
     updates := None; version := None |}.

(** Action inputs with every optional input absent. *)
Definition exampleInputs (platform : Platform) (profile : string)
  (iosScheme iosBuildConfiguration : option string) : ActionInputs :=
  {| in_platform := platform;
     in_profile := profile;
     in_submit := false;
     in_ota := false;
     in_versionBump := false;
     in_cache := true;
     in_fingerprint := false;
     in_skipPrebuild := false;
     in_prebuildClean := false;
     in_nodeVersion := "20";
     in_fastlaneVersion := "latest";
     in_xcodeVersion := None;
     in_versionStrategy := None;
     in_versionGitTagPattern := None;
     in_iosScheme := iosScheme;
     in_iosBuildConfiguration := iosBuildConfiguration;
     in_iosCertificateP12 := None;
     in_iosCertificatePassword := None;
     in_iosProvisioningProfile := None;
     in_iosExtensionProfiles := None;
     in_matchPassword := None;
     in_matchGitPrivateKey := None;
     in_ascApiKeyId := None;
     in_ascApiIssuerId := None;
     in_ascApiKeyP8 := None;
     in_androidKeystore := None;
     in_androidKeystorePassword := None;
     in_androidKeyAlias := None;
     in_androidKeyPassword := None;
     in_googlePlayServiceAccount := None |}.

(** An input that is supplied: present and not empty. *)
Definition supplied (input : option string) : option string :=
  if truthy_opt input then input else None.

(** The precedence rule in the words of the specification: the action
    input wins over the value of the config file, which wins over the hard
    default. *)
Definition inputOverFileOverDefault {A : Type}
  (input file default : option A) : option A :=
  match input with
  | Some v => Some v
  | None =>
      match file with
      | Some v => Some v
      | None => default
      end
  end.

(** The iOS settings of the profile the inputs select, when the config
    file has them. *)
Definition selectedIos (config : AppBuildConfig) (inputs : ActionInputs)
  : option IosBuildConfig :=
  match build config with
  | Some profiles =>
      match get profiles (or_else (in_profile inputs) DEFAULT_PROFILE) with
      | Some profile => profile_ios profile
      | None => None
      end
  | None => None
  end.

(** The third claim as the specification states it: on the empty config
    the merge does not fail, Android resolves to [release] with [aab] true,
    iOS resolves to [Release] and [app-store], for every action input. *)
Definition emptyConfigResolvesToDefaults : Prop :=
  forall inputs : ActionInputs,
    exists resolved,
      mergeActionInputs emptyConfig inputs = Return resolved
      /\ rc_profile resolved = or_else (in_profile inputs) "production"
      /\ match in_platform inputs with
         | android =>
             exists a, rc_android resolved = Some a
                       /\ buildType a = release /\ aab a = Some true
         | ios =>
             exists i, rc_ios resolved = Some i
                       /\ buildConfiguration i = "Release"
                       /\ exportMethod i = app_store
         end.

(** The ninth claim as the specification states it: for every platform and
    hash [restoreFingerprintCache] returns a boolean, whatever the services
    do. *)
Definition restoreNeverThrows : Prop :=
  forall (dir : string) (services : CacheServices) (platform hash : string),
    exists hit : bool,
      restoreFingerprintCache dir services platform hash = Return hit.

(** Services on a machine where the marker directory cannot be created. *)
Definition readOnlyTmp : CacheServices :=
  {| mkdirSync := fun dir =>
       Throw ("EACCES: permission denied, mkdir '" ++ dir ++ "'");
     restoreCache := fun _ _ => Return None |}.

(** Services whose cache holds exactly the key [stored]. *)
Definition cacheHolding (stored : string) : CacheServices :=
  {| mkdirSync := fun _ => Return tt;
     restoreCache := fun _ key =>
       if key =? stored then Return (Some key) else Return None |}.

(** The value reached from [v] by following the keys [ks] through
    objects. *)
Fixpoint lookupPath (v : json) (ks : list string) : option json :=
  match ks with
  | [] => Some v
  | k :: rest =>
      match property v k with
      | Some child => lookupPath child rest
      | None => None
      end
  end.



(** A project whose [app.json] holds the given document. *)
Definition projectWith (doc : obj json) : files :=
  fun path => if path =? "/app/app.json" then Document doc else Absent.

Definition joinPath (dir file : string) : string := dir ++ "/" ++ file.

(** An [app.json] with an iOS build number and other settings. *)
Definition exampleAppJson (buildNumber : json) : obj json :=
  [("name", JStr "demo");
   ("expo",
    JObj [("slug", JStr "demo");
          ("ios", JObj [("bundleIdentifier", JStr "com.example.demo");
                        ("buildNumber", buildNumber)]);
          ("android", JObj [("versionCode", JNum (JInt 7))])])].

(** The characters of a printed decimal number. *)
Definition uintChars (d : Decimal.uint) : list ascii :=
  list_ascii_of_string (NilEmpty.string_of_uint d).

(** ** version/bump: the strategies git-commit-count and timestamp *)

(** [parseInt(s, 10)] on any string: leading white space is skipped, a sign
    is read, then the longest run of decimal digits; [None] stands for
    [NaN], the answer when there is no digit. *)
Definition parseIntDecimal (s : string) : option Z :=
  let l := dropWhile isWhiteSpace (list_ascii_of_string s) in
  let negative :=
    match l with
    | c :: _ => (c =? "-")%char
    | [] => false
    end in
  let unsigned :=
    match l with
    | c :: rest => if ((c =? "-") || (c =? "+"))%char then rest else l
    | [] => []
    end in
  match takeWhile isDigit unsigned with
  | [] => None
  | digits =>
      match digitsValue 10 0 digits with
      | Some z => Some (if negative then - z else z)%Z
      | None => None
      end
  end.

(** The fields of a [Date] the timestamp reads: [getUTCFullYear],
    [getUTCMonth] (from 0), [getUTCDate], [getUTCHours], [getUTCMinutes]. *)
Record UTCDate : Type := {
  utcFullYear : Z;
  utcMonth : Z;
  utcDate : Z;
  utcHours : Z;
  utcMinutes : Z
}.

(** [s.padStart(targetLength, c)] for a one-character filler. *)
Definition padStart (targetLength : nat) (c : ascii) (s : string) : string :=
  string_of_list_ascii (repeat c (targetLength - String.length s)) ++ s.

(** The text [generateTimestamp] hands to [parseInt]. *)
Definition timestampText (now : UTCDate) : string :=
  let yyyy := integerToString (utcFullYear now) in
  let mm := padStart 2 "0" (integerToString (utcMonth now + 1)) in
  let dd := padStart 2 "0" (integerToString (utcDate now)) in
  let hh := padStart 2 "0" (integerToString (utcHours now)) in
  let min := padStart 2 "0" (integerToString (utcMinutes now)) in
  yyyy ++ mm ++ dd ++ hh ++ min.

(** [generateTimestamp(date)]; [None] stands for [NaN]. *)
Definition generateTimestamp (now : UTCDate) : option Z :=
  parseIntDecimal (timestampText now).

Section OtherStrategies.

(** [path.resolve(projectDir, file)]. *)
Variable resolve : string -> string -> string.

(** The standard output of [git rev-list --count HEAD], or the error of the
    command. *)
Variable gitRevListCount : outcome string.

(** The date [new Date()] gives when the timestamp strategy runs. *)
Variable now : UTCDate.

Definition bumpFromGitCommitCount (platform : Platform) (fs : files)
  (projectDir : string) (source : option string)
  : outcome (BumpResult * files) :=
  stdout <- gitRevListCount ;;
  match parseIntDecimal (trim stdout) with
  | None =>
      Throw ("git rev-list --count HEAD returned non-numeric value: "
             ++ dquote ++ trim stdout ++ dquote)
  | Some commitCount =>
      let field := platformField platform in
      let fs :=
        writeVersionToAppJson resolve fs projectDir source field
          (encodeBuildNumber platform commitCount) None in
      Return ({| previousValue := 0;
                 newValue := commitCount;
                 field := field;
                 bump_version := None |}, fs)
  end.

(** The timestamp strategy; [None] when the timestamp is [NaN]. *)
Definition bumpFromTimestamp (platform : Platform) (fs : files)
  (projectDir : string) (source : option string)
  : option (BumpResult * files) :=
  match generateTimestamp now with
  | None => None
  | Some stamp =>
      let field := platformField platform in
      let fs :=
        writeVersionToAppJson resolve fs projectDir source field
          (encodeBuildNumber platform stamp) None in
      Some ({| previousValue := 0;
               newValue := stamp;
               field := field;
               bump_version := None |}, fs)
  end.

End OtherStrategies.

(** ** version/bump: the native project files

    The two regular expressions of [updateNativeBuildGradle] have no
    alternative and no group; each of their quantifiers is followed by a
    character it cannot take, so at a given place the longest runs are the
    only candidates for a match. *)

(** What follows [p] at the head of [l], when [l] starts with [p]. *)
Fixpoint stripPrefix (p l : list ascii) : option (list ascii) :=
  match p, l with
  | [], _ => Some l
  | c :: p', d :: l' => if (c =? d)%char then stripPrefix p' l' else None
  | _ :: _, [] => None
  end.

(** [/versionCode\s+\d+/] tried at the head of the text: the text matched
    and what follows it. *)
Definition matchVersionCodeHere (l : list ascii)
  : option (list ascii * list ascii) :=
  let literal := list_ascii_of_string "versionCode" in
  match stripPrefix literal l with
  | Some r =>
      let r1 := dropWhile isWhiteSpace r in
      match takeWhile isWhiteSpace r, takeWhile isDigit r1 with
      | (_ :: _) as ws, (_ :: _) as ds =>
          Some ((literal ++ ws ++ ds)%list, dropWhile isDigit r1)
      | _, _ => None
      end
  | None => None
  end.

Definition isQuote (c : ascii) : bool := (c =? ascii_of_nat 34)%char.

(** The pattern for [versionName], tried at the head of the text: the
    word, white space, a double quote, the characters up to the next double
    quote, and that quote. *)
Definition matchVersionNameHere (l : list ascii)
  : option (list ascii * list ascii) :=
  let literal := list_ascii_of_string "versionName" in
  let notQuote := fun c => negb (isQuote c) in
  match stripPrefix literal l with
  | Some r =>
      match takeWhile isWhiteSpace r, dropWhile isWhiteSpace r with
      | (_ :: _) as ws, opening :: r1 =>
          if isQuote opening then
            match dropWhile notQuote r1 with
            | closing :: r2 =>
                Some ((literal ++ ws ++ opening :: takeWhile notQuote r1
                       ++ [closing])%list, r2)
            | [] => None
            end
          else None
      | _, _ => None
      end
  | None => None
  end.

(** The leftmost match of a pattern: the text before it, the text matched
    and the text after it. *)
Fixpoint searchFirst
  (matchHere : list ascii -> option (list ascii * list ascii))
  (l : list ascii) : option (list ascii * list ascii * list ascii) :=
  match matchHere l with
  | Some (matched, rest) => Some ([], matched, rest)
  | None =>
      match l with
      | [] => None
      | c :: l' =>
          match searchFirst matchHere l' with
          | Some (before, matched, rest) => Some (c :: before, matched, rest)
          | None => None
          end
      end
  end.

(** The replacement text of [String.prototype.replace] for a pattern
    without groups: [$$] is a dollar, [$&] the text matched, [$`] the text
    before it, [$'] the text after it; any other dollar stands for
    itself. *)
Fixpoint expandReplacement (template before matched rest : list ascii)
  : list ascii :=
  match template with
  | [] => []
  | c :: t =>
      if (c =? "$")%char then
        match t with
        | d :: t' =>
            if (d =? "$")%char then
              c :: expandReplacement t' before matched rest
            else if (d =? "&")%char then
              (matched ++ expandReplacement t' before matched rest)%list
            else if (d =? "`")%char then
              (before ++ expandReplacement t' before matched rest)%list
            else if (d =? "'")%char then
              (rest ++ expandReplacement t' before matched rest)%list
            else c :: expandReplacement t before matched rest
        | [] => [c]
        end
      else c :: expandReplacement t before matched rest
  end.

(** [content.replace(pattern, template)] for a pattern without the global
    flag: the leftmost match is replaced, a text without a match is
    returned as it is. *)
Definition replaceFirst
  (matchHere : list ascii -> option (list ascii * list ascii))
  (template content : string) : string :=
  match searchFirst matchHere (list_ascii_of_string content) with
  | Some (before, matched, rest) =>
      string_of_list_ascii
        (before
         ++ expandReplacement (list_ascii_of_string template) before matched
              rest
         ++ rest)%list
  | None => content
  end.

(** A text file of the native project: missing, one that cannot be read,
    or its content.  As for the config file, a write that follows a
    successful read is taken to succeed. *)
Inductive textFile : Type :=
| MissingFile
| UnreadableFile (message : string)
| TextFile (content : string).

(** [updateNativeBuildGradle]: [android/app/build.gradle] after the call. *)
Definition updateNativeBuildGradle (buildGradle : textFile)
  (versionCode : Z) (version : option string) : textFile :=
  match buildGradle with
  | MissingFile => MissingFile
  | UnreadableFile message => UnreadableFile message
  | TextFile content =>
      let content :=
        replaceFirst matchVersionCodeHere
          ("versionCode " ++ integerToString versionCode) content in
      let content :=
        if truthy_opt version then
          replaceFirst matchVersionNameHere
            ("versionName " ++ dquote ++ nullish version "" ++ dquote)
            content
        else content in
      TextFile content
  end.

(** An entry of the [ios] directory: its name, whether it is a directory,
    and whether it holds an [Info.plist]. *)
Record dirEntry : Type := {
  entryName : string;
  isDirectory : bool;
  hasInfoPlist : bool
}.

(** The [ios] directory: missing, one that [readdirSync] cannot list (the
    message is the one it throws with), or its entries. *)
Inductive directory : Type :=
| NoDirectory
| UnlistedDirectory (message : string)
| Directory (entries : list dirEntry).

Definition startsWithDot (name : string) : bool :=
  match name with
  | String c _ => (c =? ".")%char
  | EmptyString => false
  end.

Section NativeProject.

Variable resolve : string -> string -> string.
Variable expoConfig : outcome json.
Variable gitDescribe : string -> outcome string.
Variable gitRevListCount : outcome string.
Variable now : UTCDate.

(** [path.join]. *)
Variable pathJoin : list string -> string.

(** [plutil] run with the given arguments: whether it succeeds. *)
Variable plutil : list string -> outcome unit.

Definition plistPaths (projectDir : string) (entries : list dirEntry)
  : list string :=
  let iosDir := pathJoin [projectDir; "ios"] in
  flat_map
    (fun entry =>
       if negb (isDirectory entry) then []
       else if (entryName entry =? "Pods") || startsWithDot (entryName entry)
       then []
       else if hasInfoPlist entry
       then [pathJoin [iosDir; entryName entry; "Info.plist"]]
       else [])
    entries.

(** The [plutil] commands run for one [Info.plist], in order. *)
Definition updatePlist (buildNumber : string) (version : option string)
  (plistPath : string) : list (list string) :=
  let setBuild :=
    ["-replace"; "CFBundleVersion"; "-string"; buildNumber; plistPath] in
  match plutil setBuild with
  | Return _ =>
      if truthy_opt version then
        [setBuild;
         ["-replace"; "CFBundleShortVersionString"; "-string";
          nullish version ""; plistPath]]
      else [setBuild]
  | Throw _ => [setBuild]
  end.

(** [updateNativeInfoPlist]: the [plutil] commands it runs, or the error
    it throws. *)
Definition updateNativeInfoPlist (iosDirectory : directory)
  (projectDir buildNumber : string) (version : option string)
  : outcome (list (list string)) :=
  match iosDirectory with
  | NoDirectory => Return []
  | UnlistedDirectory message => Throw message
  | Directory entries =>
      Return (flat_map (updatePlist buildNumber version)
                (plistPaths projectDir entries))
  end.

(** What a bump leaves behind: the config files, [build.gradle] and the
    [plutil] commands run. *)
Record Bumped : Type := {
  bump_result : BumpResult;
  bump_files : files;
  bump_buildGradle : textFile;
  bump_plutil : list (list string)
}.

(** [bumpVersion].  The strategy is the string the caller hands over, which
    the pipelines cast from the action input.  [None] when the strategy
    computes with a number outside the integer fragment. *)
Definition bumpVersion (platform : Platform) (fs : files)
  (buildGradle : textFile) (iosDirectory : directory)
  (projectDir : string) (source strategy gitTagPattern : option string)
  : option (outcome Bumped) :=
  let effectiveStrategy := nullish strategy "app-json" in
  let result : option (outcome (BumpResult * files)) :=
    if effectiveStrategy =? "app-json" then
      bumpFromAppJson resolve expoConfig platform fs projectDir source
    else if effectiveStrategy =? "git-tag" then
      Some (Return (bumpFromGitTag resolve gitDescribe platform fs projectDir
                      source gitTagPattern))
    else if effectiveStrategy =? "git-commit-count" then
      Some (bumpFromGitCommitCount resolve gitRevListCount platform fs
              projectDir source)
    else if effectiveStrategy =? "timestamp" then
      match bumpFromTimestamp resolve now platform fs projectDir source with
      | Some r => Some (Return r)
      | None => None
      end
    else Some (Throw ("Unknown version strategy: " ++ effectiveStrategy)) in
  match result with
  | None => None
  | Some (Throw message) => Some (Throw message)
  | Some (Return (result, fs)) =>
      match platform with
      | ios =>
          match updateNativeInfoPlist iosDirectory projectDir
                  (integerToString (newValue result)) (bump_version result)
          with
          | Return commands =>
              Some (Return {| bump_result := result;
                              bump_files := fs;
                              bump_buildGradle := buildGradle;
                              bump_plutil := commands |})
          | Throw message => Some (Throw message)
          end
      | android =>
          Some (Return {| bump_result := result;
                          bump_files := fs;
                          bump_buildGradle :=
                            updateNativeBuildGradle buildGradle
                              (newValue result) (bump_version result);
                          bump_plutil := [] |})
      end
  end.

(** ** index: the version bump of the build pipelines

    [runAndroidBuildPipeline] and [runIosBuildPipeline] bump the version
    with the same call, each for its platform, and [run] starts the
    pipeline of [config.platform]: [None] when the step is skipped. *)
Definition pipelineVersionBump (config : ResolvedConfig) (fs : files)
  (buildGradle : textFile) (iosDirectory : directory) (projectDir : string)
  : option (option (outcome Bumped)) :=
  if rc_versionBump config then
    Some (bumpVersion (rc_platform config) fs buildGradle iosDirectory
            projectDir
            (match rc_versionConfig config with
             | Some versionConfig => source versionConfig
             | None => None
             end)
            (rc_versionStrategy config) (rc_versionGitTagPattern config))
  else None.

End NativeProject.

(** ** fingerprint/compute *)

Record FingerprintResult : Type := {
  hash : string;
  sourceCount : nat
}.

Section ComputeFingerprint.

(** The standard output of [npx @expo/fingerprint fingerprint:generate
    --platform <platform>] run in the project directory, or the error of
    the command. *)
Variable runFingerprint : string -> string -> outcome string.

(** [JSON.parse]: the value the text denotes, or the syntax error. *)
Variable JSON_parse : string -> outcome json.

Definition invalidFingerprint : string :=
  "@expo/fingerprint returned invalid result: missing or non-string hash field.".

(** Reading a property of [null] throws a [TypeError]; the message is the
    engine's. *)
Definition computeFingerprint (platform : Platform) (projectDir : string)
  : outcome FingerprintResult :=
  stdout <- runFingerprint (platformName platform) projectDir ;;
  match JSON_parse (trim stdout) with
  | Throw _ =>
      Throw ("Failed to parse @expo/fingerprint output. "
             ++ "Expected JSON with {hash, sources}. Got: "
             ++ substring 0 200 stdout)
  | Return JNull => Throw "Cannot read properties of null (reading 'hash')"
  | Return parsed =>
      match property parsed "hash" with
      | Some (JStr h) =>
          if truthy h then
            Return {| hash := h;
                      sourceCount :=
                        match property parsed "sources" with
                        | Some (JArr sources) => List.length sources
                        | _ => 0%nat
                        end |}
          else Throw invalidFingerprint
      | _ => Throw invalidFingerprint
      end
  end.

End ComputeFingerprint.

(** ** fingerprint/cache: saving the marker *)

(** The services [saveFingerprintCache] calls beside those of
    [restoreFingerprintCache]: [fs.writeFileSync(path, JSON.stringify(marker,
    null, 2))], with the file modelled by the object written, and
    [cache.saveCache(paths, key)], which resolves to the id of the entry. *)
Record MarkerServices : Type := {
  cacheServices : CacheServices;
  writeFileSync : string -> obj json -> outcome unit;
  saveCache : list string -> string -> outcome Z
}.

Section SaveFingerprint.

Variable FINGERPRINT_MARKER_DIR : string.

(** [path.join(FINGERPRINT_MARKER_DIR, 'marker.json')]. *)
Variable markerPath : string.

(** [new Date().toISOString()] when the marker is written. *)
Variable nowISOString : string.

Definition saveFingerprintCache (services : MarkerServices)
  (platform hash : string) : outcome unit :=
  let key := cacheKey platform hash in
  _ <- mkdirSync (cacheServices services) FINGERPRINT_MARKER_DIR ;;
  let marker :=
    [("hash", JStr hash); ("timestamp", JStr nowISOString);
     ("platform", JStr platform)] in
  _ <- writeFileSync services markerPath marker ;;
  match saveCache services [FINGERPRINT_MARKER_DIR] key with
  | Return _ => Return tt
  | Throw _ => Return tt
  end.

End SaveFingerprint.

(** ** index: the environment input *)




Section Environment.

Variable JSON_parse : string -> outcome json.



End Environment.

(** ** Vocabulary of the further properties *)

(** An array stands on the way from [v] along the keys [ks], at a place
    where [setNestedValue] has to go into it or to write its last key. *)
Fixpoint arrayOnPath (v : json) (ks : list string) : bool :=
  match ks with
  | [] => false
  | key :: rest =>
      match v with
      | JArr _ => true
      | JObj props =>
          match rest with
          | [] => false
          | _ =>
              match get props key with
              | Some child => arrayOnPath child rest
              | None => false
              end
          end
      | _ => false
      end
  end.



(** A config with a version section only. *)
Definition versionOnlyConfig : AppBuildConfig :=
  {| build := None; submit := None; signing := None; updates := None;
     version := Some {| autoIncrement := true; source := None;
                        strategy := Some git_tag; gitTagPattern := None |} |}.

(** The characters of [String(z)]. *)
Definition integerChars (z : Z) : list ascii :=
  list_ascii_of_string (integerToString z).

(** The first character of a text, when it is a digit. *)
Definition startsWithDigit (s : string) : bool :=
  match s with
  | String c _ => isDigit c
  | EmptyString => false
  end.


(** The number [YYYYMMDDHHmm] of a date. *)
Definition timestampNumber (now : UTCDate) : Z :=
  (utcFullYear now * 100000000 + (utcMonth now + 1) * 1000000
   + utcDate now * 10000 + utcHours now * 100 + utcMinutes now)%Z.

(** A date whose fields are in the ranges of the [getUTC] functions, in a
    year that is not negative. *)
Definition calendarDate (now : UTCDate) : Prop :=
  (0 <= utcFullYear now /\ 0 <= utcMonth now <= 11 /\ 1 <= utcDate now <= 31
   /\ 0 <= utcHours now <= 23 /\ 0 <= utcMinutes now <= 59)%Z.

(** 15 June 2024, 14:30 UTC. *)
Definition exampleDate : UTCDate :=
  {| utcFullYear := 2024; utcMonth := 5; utcDate := 15; utcHours := 14;
     utcMinutes := 30 |}.

(** A text with no integer at its start: empty, or starting with a
    character that is neither a digit nor a sign, or with a sign that no
    digit follows. *)
Definition noLeadingInteger (s : string) : bool :=
  match list_ascii_of_string s with
  | [] => true
  | c :: rest =>
      if ((c =? "-") || (c =? "+"))%char
      then match rest with
           | d :: _ => negb (isDigit d)
           | [] => true
           end
      else negb (isDigit c)
  end.

(** The order of dates, minute by minute. *)
Definition dateBefore (a b : UTCDate) : Prop :=
  (utcFullYear a < utcFullYear b
   \/ (utcFullYear a = utcFullYear b
       /\ (utcMonth a < utcMonth b
           \/ (utcMonth a = utcMonth b
               /\ (utcDate a < utcDate b
                   \/ (utcDate a = utcDate b
                       /\ (utcHours a < utcHours b
                           \/ (utcHours a = utcHours b
                               /\ utcMinutes a < utcMinutes b))))))))%Z.

(** One minute before and at midnight, new year 2025. *)
Definition lastMinuteOf2024 : UTCDate :=
  {| utcFullYear := 2024; utcMonth := 11; utcDate := 31; utcHours := 23;
     utcMinutes := 59 |}.

Definition firstMinuteOf2025 : UTCDate :=
  {| utcFullYear := 2025; utcMonth := 0; utcDate := 1; utcHours := 0;
     utcMinutes := 0 |}.

(** A project directory with a dynamic config and no [app.json]. *)
Definition dynamicProject : files :=
  fun path => if path =? "/app/app.config.js" then NotJson "Unexpected token" else Absent.

(** What [expo config] prints for it. *)
Definition dynamicExpoConfig : json :=
  JObj [("slug", JStr "demo"); ("ios", JObj [("buildNumber", JStr "41")])].

(** Marker services that keep nothing: every call succeeds but
    [saveCache], which fails as it does when the key is taken. *)
Definition keyTaken : MarkerServices :=
  {| cacheServices := cacheHolding "native-build-ios-abc";
     writeFileSync := fun _ _ => Return tt;
     saveCache := fun _ key =>
       Throw ("Unable to reserve cache with key " ++ key) |}.




(** A [JSON.parse] that knows one text. *)
Definition parseOnly (text : string) (v : json) : string -> outcome json :=
  fun s => if s =? text then Return v else Throw "Unexpected token".

(** A [build.gradle] with two version codes. *)
Definition exampleBuildGradle : string :=
  "android {" ++ newline
  ++ "  defaultConfig {" ++ newline
  ++ "    versionCode   12" ++ newline
  ++ "    versionName " ++ dquote ++ "1.0.0" ++ dquote ++ newline
  ++ "  }" ++ newline
  ++ "  versionCode 5" ++ newline
  ++ "}".

(** The names [bumpVersion] knows. *)
Definition knownStrategy (name : string) : bool :=
  (name =? "app-json") || (name =? "git-tag") || (name =? "git-commit-count")
  || (name =? "timestamp").

(** A config file that asks for the git-tag strategy and no automatic
    increment. *)
Definition gitTagConfig : AppBuildConfig :=
  {| build := Some exampleProfiles; submit := None; signing := None;
     updates := None;
     version := Some {| autoIncrement := false; source := None;
                        strategy := Some git_tag;
                        gitTagPattern := Some "release-*" |} |}.

(** Android inputs that ask for a version bump with the given strategy. *)
Definition bumpInputs (versionStrategy : option string) : ActionInputs :=
  {| in_platform := android;
     in_profile := "development";
     in_submit := false;
     in_ota := false;
     in_versionBump := true;
     in_cache := true;
     in_fingerprint := false;
     in_skipPrebuild := false;
     in_prebuildClean := false;
     in_nodeVersion := "20";
     in_fastlaneVersion := "latest";
     in_xcodeVersion := None;
     in_versionStrategy := versionStrategy;
     in_versionGitTagPattern := None;
     in_iosScheme := None;
     in_iosBuildConfiguration := None;
     in_iosCertificateP12 := None;
     in_iosCertificatePassword := None;
     in_iosProvisioningProfile := None;
     in_iosExtensionProfiles := None;
     in_matchPassword := None;
     in_matchGitPrivateKey := None;
     in_ascApiKeyId := None;
     in_ascApiIssuerId := None;
     in_ascApiKeyP8 := None;
     in_androidKeystore := None;
     in_androidKeystorePassword := None;
     in_androidKeyAlias := None;
     in_androidKeyPassword := None;
     in_googlePlayServiceAccount := None |}.

(** A machine without git and without the Expo tools. *)
Definition noGit : string -> outcome string :=
  fun _ => Throw "fatal: not a git repository".

Definition noExpo : outcome json := Throw "expo: command not found".

Definition slashJoin (segments : list string) : string :=
  join "/" segments.

Definition plutilSucceeds : list string -> outcome unit :=
  fun _ => Return tt.

(** * Properties *)

(** ** Strings and objects *)

Lemma append_nil_r (s : string) : s ++ "" = s.
Proof. induction s as [|c s IH]; simpl; [reflexivity | now rewrite IH]. Qed.






Section ObjectFacts.

Context {A : Type}.
Implicit Types (o : obj A) (k : string) (v : A).

Lemma get_set_same o k v : get (set o k v) k = Some v.
Proof.
  induction o as [|[k' v'] rest IH]; simpl.
  - now rewrite String.eqb_refl.
  - destruct (k' =? k) eqn:E; simpl; rewrite E; auto.
Qed.

Lemma get_set_other o k k' v : k <> k' -> get (set o k v) k' = get o k'.
Proof.
  intros Hne. induction o as [|[k0 v0] rest IH]; simpl.
  - apply String.eqb_neq in Hne. now rewrite Hne.
  - destruct (k0 =? k) eqn:E; simpl.
    + apply String.eqb_eq in E. subst k0.
      apply String.eqb_neq in Hne. now rewrite Hne.
    + now rewrite IH.
Qed.


Lemma get_In_keys o k v : get o k = Some v -> In k (keys o).
Proof.
  unfold keys. induction o as [|[k' v'] rest IH]; simpl; [discriminate|].
  destruct (k' =? k) eqn:E.
  - apply String.eqb_eq in E. now left.
  - intros H. right. now apply IH.
Qed.

End ObjectFacts.

(** ** Configuration resolution *)




(** C10: on a config without build section, as [parseConfigFile] returns
    it when the file does not exist, [getProfileConfig] returns [undefined]
    for every profile name and platform and throws nothing. *)
Theorem getProfileConfig_no_build
  (configPath P : string) (X : Platform) :
  parseConfigFile configPath NoFile = Return emptyConfig
  /\ getProfileConfig emptyConfig P X = Return None
  /\ forall submit signing updates version,
       getProfileConfig
         {| build := None; submit := submit; signing := signing;
            updates := updates; version := version |} P X
       = Return None.
Proof. repeat split. Qed.

(** C2: the resolved config returned by [mergeActionInputs] has [ios]
    defined exactly when the platform input is ios and [android] defined
    exactly when it is android; exactly one of the two is defined. *)
Theorem mergeActionInputs_one_platform
  (config : AppBuildConfig) (inputs : ActionInputs) (resolved : ResolvedConfig) :
  mergeActionInputs config inputs = Return resolved ->
  (isSome (rc_ios resolved) = true <-> in_platform inputs = ios)
  /\ (isSome (rc_android resolved) = true <-> in_platform inputs = android)
  /\ isSome (rc_ios resolved) = negb (isSome (rc_android resolved)).
Proof.
  unfold mergeActionInputs.
  destruct (getProfileConfig config _ (in_platform inputs)) as [pc|m];
    simpl; [|discriminate].
  destruct (in_platform inputs); intros [= <-]; simpl;
    repeat split; intros; congruence.
Qed.

Lemma mergeActionInputs_one_platform_witness :
  exists resolved,
    mergeActionInputs exampleConfig (exampleInputs ios "production" None None)
    = Return resolved
    /\ rc_ios resolved
       = Some {| scheme := Some "MyApp"; buildConfiguration := "Release";
                 exportMethod := app_store |}
    /\ rc_android resolved = None
    /\ (isSome (rc_ios resolved) = true <-> ios = ios)
    /\ (isSome (rc_android resolved) = true <-> ios = android)
    /\ isSome (rc_ios resolved) = negb (isSome (rc_android resolved)).
Proof.
  eexists. split; [reflexivity|].
  split; [reflexivity|]. split; [reflexivity|].
  exact (mergeActionInputs_one_platform exampleConfig
           (exampleInputs ios "production" None None) _ eq_refl).
Defined.


(** The iOS settings [mergeActionInputs] builds from what
    [getProfileConfig] found. *)
Lemma mergeActionInputs_ios
  (config : AppBuildConfig) (inputs : ActionInputs)
  (found : option IosBuildConfig) :
  in_platform inputs = ios ->
  getProfileConfig config (or_else (in_profile inputs) DEFAULT_PROFILE) ios
  = Return found ->
  exists resolved,
    mergeActionInputs config inputs = Return resolved
    /\ rc_android resolved = None
    /\ rc_ios resolved
       = Some (overrideBuildConfiguration (in_iosBuildConfiguration inputs)
                 (overrideScheme (in_iosScheme inputs)
                    (nullish found defaultIos))).
Proof.
  intros Hp Hget. destruct inputs; simpl in *. subst.
  unfold mergeActionInputs. simpl. rewrite Hget. simpl.
  eexists. repeat split.
Qed.

(** C3, as stated, fails: with the empty config and the input
    [iosBuildConfiguration] set to [Debug], the resolved iOS build
    configuration is [Debug], not [Release]. *)
Lemma emptyConfig_input_overrides_default :
  (exists resolved i,
      mergeActionInputs emptyConfig (exampleInputs ios "" None (Some "Debug"))
      = Return resolved
      /\ rc_ios resolved = Some i
      /\ buildConfiguration i = "Debug")
  /\ ~ emptyConfigResolvesToDefaults.
Proof.
  split.
  - do 2 eexists. repeat split.
  - intros claim.
    destruct (claim (exampleInputs ios "" None (Some "Debug")))
      as (resolved & Hmerge & _ & i & Hios & Hbc & _).
    cbv in Hmerge. injection Hmerge as <-.
    cbv in Hios. injection Hios as <-.
    discriminate Hbc.
Qed.

(** C3, amended: on the empty config [mergeActionInputs] does not fail; the
    profile name is the input, or [production] when the input is empty;
    for android it resolves [buildType] to [release] and [aab] to [true];
    for ios it resolves [exportMethod] to [app-store] and
    [buildConfiguration] to [Release] unless the input
    [iosBuildConfiguration] is supplied, which then is the value. *)
Theorem mergeActionInputs_emptyConfig (inputs : ActionInputs) :
  exists resolved,
    mergeActionInputs emptyConfig inputs = Return resolved
    /\ rc_profile resolved
       = (if in_profile inputs =? "" then "production" else in_profile inputs)
    /\ match in_platform inputs with
       | android =>
           rc_ios resolved = None
           /\ rc_android resolved
              = Some {| buildType := release; aab := Some true |}
       | ios =>
           rc_android resolved = None
           /\ exists i,
               rc_ios resolved = Some i
               /\ exportMethod i = app_store
               /\ buildConfiguration i
                  = match supplied (in_iosBuildConfiguration inputs) with
                    | Some v => v
                    | None => "Release"
                    end
               /\ scheme i = supplied (in_iosScheme inputs)
       end.
Proof.
  unfold mergeActionInputs, emptyConfig, getProfileConfig; simpl.
  destruct (in_platform inputs); simpl.
  - eexists. split; [reflexivity|]. simpl.
    split; [unfold or_else, truthy; now destruct (in_profile inputs =? "")|].
    split; [reflexivity|].
    eexists. split; [reflexivity|].
    unfold overrideBuildConfiguration, overrideScheme, supplied, truthy_opt.
    destruct (in_iosBuildConfiguration inputs) as [b|],
             (in_iosScheme inputs) as [s|]; simpl;
      try destruct (truthy b); try destruct (truthy s); simpl; auto.
  - eexists. split; [reflexivity|]. simpl.
    split; [unfold or_else, truthy; now destruct (in_profile inputs =? "")|].
    split; reflexivity.
Qed.

(** C4: on platform ios, whenever the selected profile configures ios (or
    there is no build section at all), the resolved scheme and build
    configuration are the action input when it is supplied, else the value
    of the config-file profile, else the hard default ([Release]; the scheme
    has none). *)
Theorem mergeActionInputs_ios_precedence
  (config : AppBuildConfig) (inputs : ActionInputs) :
  in_platform inputs = ios ->
  isSome (selectedIos config inputs) || negb (isSome (build config)) = true ->
  exists resolved i,
    mergeActionInputs config inputs = Return resolved
    /\ rc_ios resolved = Some i
    /\ Some (buildConfiguration i)
       = inputOverFileOverDefault
           (supplied (in_iosBuildConfiguration inputs))
           (option_map buildConfiguration (selectedIos config inputs))
           (Some DEFAULT_IOS_BUILD_CONFIGURATION)
    /\ scheme i
       = inputOverFileOverDefault
           (supplied (in_iosScheme inputs))
           (match selectedIos config inputs with
            | Some c => scheme c
            | None => None
            end)
           None
    /\ exportMethod i
       = match selectedIos config inputs with
         | Some c => exportMethod c
         | None => DEFAULT_IOS_EXPORT_METHOD
         end.
Proof.
  intros Hp Hsel.
  destruct (mergeActionInputs_ios config inputs (selectedIos config inputs) Hp)
    as (resolved & Hmerge & _ & Hios).
  { unfold getProfileConfig, selectedIos in *.
    destruct (build config) as [profiles|]; [|reflexivity].
    destruct (get profiles _) as [profile|]; [|discriminate].
    simpl in *. destruct (profile_ios profile); [reflexivity|discriminate]. }
  exists resolved. eexists. split; [exact Hmerge|]. split; [exact Hios|].
  unfold overrideBuildConfiguration, overrideScheme, supplied, truthy_opt,
    inputOverFileOverDefault.
  destruct (selectedIos config inputs) as [c|];
    destruct (in_iosBuildConfiguration inputs) as [b|],
             (in_iosScheme inputs) as [s|]; simpl;
    try destruct (truthy b); try destruct (truthy s); simpl;
    repeat split; try reflexivity; destruct (scheme c); reflexivity.
Qed.

Lemma mergeActionInputs_ios_precedence_witness :
  in_platform (exampleInputs ios "production" (Some "MyApp-Production") None)
  = ios
  /\ isSome (selectedIos exampleConfig
               (exampleInputs ios "production" (Some "MyApp-Production") None))
     || negb (isSome (build exampleConfig)) = true
  /\ exists resolved i,
      mergeActionInputs exampleConfig
        (exampleInputs ios "production" (Some "MyApp-Production") None)
      = Return resolved
      /\ rc_ios resolved = Some i
      /\ Some (buildConfiguration i) = Some "Release"
      /\ scheme i = Some "MyApp-Production"
      /\ exportMethod i = app_store.
Proof.
  split; [reflexivity|]. split; [reflexivity|].
  exact (mergeActionInputs_ios_precedence exampleConfig
           (exampleInputs ios "production" (Some "MyApp-Production") None)
           eq_refl eq_refl).
Defined.

(** C1: a config file whose build section holds a profile that configures
    neither ios nor android is expected to fail schema validation.  The
    schema accepts it: for [{"build": {name: {}}}], [parseConfigFile]
    returns the config with the empty profile. *)
Theorem parseConfigFile_accepts_empty_profile (configPath name : string) :
  parseConfigFile configPath
    (Content (Some (JObj [("build", JObj [(name, JObj [])])])))
  = Return {| build :=
                Some [(name, {| profile_ios := None;
                                profile_android := None |})];
              submit := None; signing := None; updates := None;
              version := None |}.
Proof. reflexivity. Qed.

(** ** Fingerprint cache *)

(** C9, as stated, fails: where the marker directory cannot be created,
    [restoreFingerprintCache] throws. *)
Lemma restoreFingerprintCache_mkdir_failure :
  restoreFingerprintCache "/tmp/app-build-fingerprint" readOnlyTmp "ios" "h1"
  = Throw "EACCES: permission denied, mkdir '/tmp/app-build-fingerprint'"
  /\ ~ restoreNeverThrows.
Proof.
  split; [reflexivity|].
  intros claim.
  destruct (claim "/tmp/app-build-fingerprint" readOnlyTmp "ios" "h1")
    as (hit & H).
  discriminate H.
Qed.

(** C9, amended: once the marker directory is created,
    [restoreFingerprintCache] returns a boolean and propagates no error of
    the cache store: it returns [false] when the restore call throws, as it
    does on a miss, and [true] exactly when the restore reports a hit for
    the key [native-build-{platform}-{hash}]. *)
Theorem restoreFingerprintCache_total
  (dir : string) (services : CacheServices) (platform hash : string) :
  mkdirSync services dir = Return tt ->
  let restore :=
    restoreCache services [dir] ("native-build-" ++ platform ++ "-" ++ hash) in
  exists hit : bool,
    restoreFingerprintCache dir services platform hash = Return hit
    /\ (hit = true <-> exists key, restore = Return (Some key) /\ key <> "")
    /\ (forall message, restore = Throw message -> hit = false)
    /\ (restore = Return None -> hit = false).
Proof.
  intros Hmk. cbv zeta. unfold restoreFingerprintCache, cacheKey.
  rewrite Hmk. unfold bind.
  destruct (restoreCache services [dir] _) as [[key|]|message];
    unfold truthy_opt.
  - unfold truthy. destruct (key =? "") eqn:Ek; simpl.
    + exists false. split; [reflexivity|]. split; [split|split].
      * discriminate.
      * intros (k & [= <-] & Hne). apply String.eqb_eq in Ek. contradiction.
      * reflexivity.
      * reflexivity.
    + exists true. split; [reflexivity|]. split; [split|split].
      * intros _. exists key. split; [reflexivity|]. now apply String.eqb_neq.
      * reflexivity.
      * discriminate.
      * discriminate.
  - exists false. split; [reflexivity|]. split; [split|split].
    + discriminate.
    + intros (k & Hk & _). discriminate Hk.
    + reflexivity.
    + reflexivity.
  - exists false. split; [reflexivity|]. split; [split|split].
    + discriminate.
    + intros (k & Hk & _). discriminate Hk.
    + reflexivity.
    + reflexivity.
Qed.

Lemma restoreFingerprintCache_total_witness :
  mkdirSync (cacheHolding "native-build-ios-h1") "/tmp/app-build-fingerprint"
  = Return tt
  /\ restoreFingerprintCache "/tmp/app-build-fingerprint"
       (cacheHolding "native-build-ios-h1") "ios" "h1" = Return true
  /\ restoreFingerprintCache "/tmp/app-build-fingerprint"
       (cacheHolding "native-build-ios-h1") "ios" "h2" = Return false.
Proof.
  split; [reflexivity|].
  destruct (restoreFingerprintCache_total "/tmp/app-build-fingerprint"
              (cacheHolding "native-build-ios-h1") "ios" "h1" eq_refl)
    as (hit1 & H1 & Hhit & _).
  destruct (restoreFingerprintCache_total "/tmp/app-build-fingerprint"
              (cacheHolding "native-build-ios-h1") "ios" "h2" eq_refl)
    as (hit2 & H2 & _ & _ & Hmiss).
  split.
  - rewrite H1. f_equal. apply Hhit.
    exists "native-build-ios-h1". split; [reflexivity | discriminate].
  - rewrite H2. f_equal. apply Hmiss. reflexivity.
Defined.

(** ** Decimal strings: [Number(String(n))] is [n] *)

Lemma digit_not_space (c : ascii) : isDigit c = true -> isWhiteSpace c = false.
Proof.
  destruct c as [[] [] [] [] [] [] [] []]; try discriminate; reflexivity.
Qed.

Lemma digit_not_radix (c : ascii) :
  isDigit c = true ->
  ((c =? "x") || (c =? "X") || (c =? "o") || (c =? "O")
   || (c =? "b") || (c =? "B") || (c =? "+") || (c =? "-") || (c =? "."))%char
  = false.
Proof.
  destruct c as [[] [] [] [] [] [] [] []]; try discriminate; reflexivity.
Qed.

Lemma dropWhile_none {A : Type} (f : A -> bool) (l : list A) :
  (forall x, In x l -> f x = false) -> dropWhile f l = l.
Proof.
  destruct l as [|x rest]; simpl; [reflexivity|].
  intros H. now rewrite (H x (or_introl eq_refl)).
Qed.

Lemma trimChars_id (l : list ascii) :
  (forall c, In c l -> isWhiteSpace c = false) -> trimChars l = l.
Proof.
  intros H. unfold trimChars.
  rewrite (dropWhile_none _ l H).
  rewrite dropWhile_none; [apply rev_involutive|].
  intros c Hin. apply H. now apply in_rev.
Qed.

Lemma takeWhile_all {A : Type} (f : A -> bool) (l : list A) :
  forallb f l = true -> takeWhile f l = l.
Proof.
  induction l as [|x rest IH]; simpl; [reflexivity|].
  intros H. apply andb_prop in H as [Hx Hrest].
  now rewrite Hx, IH.
Qed.

Lemma dropWhile_all {A : Type} (f : A -> bool) (l : list A) :
  forallb f l = true -> dropWhile f l = [].
Proof.
  induction l as [|x rest IH]; simpl; [reflexivity|].
  intros H. apply andb_prop in H as [Hx Hrest].
  now rewrite Hx, IH.
Qed.

Lemma uintChars_digits (d : Decimal.uint) : forallb isDigit (uintChars d) = true.
Proof.
  unfold uintChars. induction d; simpl; auto.
Qed.

(** Evaluates the value of a digit that is a literal character. *)
Ltac eval_digit :=
  match goal with
  | |- context [digitValue 10 ?c] =>
      let v := eval vm_compute in (digitValue 10 c) in
      change (digitValue 10 c) with v; cbv iota beta
  end.

Lemma digitsValue_acc (d : Decimal.uint) (acc : positive) :
  digitsValue 10 (Z.pos acc) (uintChars d)
  = Some (Z.pos (Pos.of_uint_acc d acc)).
Proof.
  unfold uintChars. revert acc.
  induction d; intros acc; cbn -[Pos.mul Pos.add Z.mul Z.add digitValue];
    [reflexivity|..]; eval_digit; rewrite <- IHd; f_equal; lia.
Qed.

Lemma digitsValue_uint (d : Decimal.uint) :
  digitsValue 10 0 (uintChars d) = Some (Z.of_uint d).
Proof.
  unfold Z.of_uint.
  induction d; cbn -[Pos.mul Pos.add Z.mul Z.add digitValue];
    [reflexivity|..]; eval_digit; [exact IHd|..]; apply (digitsValue_acc d).
Qed.

Lemma nonDecimalLiteral_digits (l : list ascii) :
  forallb isDigit l = true -> nonDecimalLiteral l = None.
Proof.
  destruct l as [|c [|r [|d rest]]]; intros H;
    [reflexivity
    |destruct c as [[] [] [] [] [] [] [] []]; reflexivity
    |destruct c as [[] [] [] [] [] [] [] []]; reflexivity
    |].
  cbn [forallb] in H.
  apply andb_prop in H as [_ H]. apply andb_prop in H as [Hr _].
  destruct c as [[] [] [] [] [] [] [] []]; try reflexivity.
  destruct r as [[] [] [] [] [] [] [] []]; try discriminate Hr; reflexivity.
Qed.

Lemma unsignedDecimal_digits (l : list ascii) (z : Z) :
  l <> [] -> forallb isDigit l = true -> digitsValue 10 0 l = Some z ->
  unsignedDecimal l = IntegerLiteral z.
Proof.
  intros Hne Hd Hv. unfold unsignedDecimal.
  rewrite (takeWhile_all _ _ Hd), (dropWhile_all _ _ Hd), Hv.
  destruct l; [contradiction | reflexivity].
Qed.

Lemma signedDecimal_digits (negative : bool) (l : list ascii) (z : Z) :
  l <> [] -> forallb isDigit l = true -> digitsValue 10 0 l = Some z ->
  signedDecimal negative l = Some (Finite (if negative then - z else z))%Z.
Proof.
  intros Hne Hd Hv. unfold signedDecimal.
  destruct (list_eq_dec ascii_dec l Infinity_chars) as [E|_].
  - subst l. discriminate Hd.
  - now rewrite (unsignedDecimal_digits l z Hne Hd Hv).
Qed.

Lemma uintChars_nonempty (p : positive) : uintChars (Pos.to_uint p) <> [].
Proof.
  unfold uintChars.
  pose proof (DecimalPos.Unsigned.to_uint_nonnil p) as H.
  destruct (Pos.to_uint p); simpl; congruence.
Qed.

Lemma StringToNumber_digits (l : list ascii) (z : Z) :
  l <> [] -> forallb isDigit l = true -> digitsValue 10 0 l = Some z ->
  StringToNumber (string_of_list_ascii l) = Some (Finite z).
Proof.
  intros Hne Hd Hv. unfold StringToNumber.
  rewrite list_ascii_of_string_of_list_ascii.
  rewrite trimChars_id.
  2:{ intros c Hin. apply digit_not_space.
      now apply (proj1 (forallb_forall isDigit l) Hd). }
  destruct l as [|c rest] eqn:El; [contradiction|]. rewrite <- El in *.
  assert (Hc : isDigit c = true).
  { subst l. simpl in Hd. now apply andb_prop in Hd as [Hc _]. }
  pose proof (digit_not_radix c Hc) as Hnot.
  repeat (apply orb_false_elim in Hnot as [Hnot ?]).
  rewrite H0, H1.
  rewrite (nonDecimalLiteral_digits l Hd).
  now rewrite (signedDecimal_digits false l z).
Qed.

(** Parsing a printed integer gives the integer back. *)
Lemma StringToNumber_integerToString (z : Z) :
  StringToNumber (integerToString z) = Some (Finite z).
Proof.
  unfold integerToString. destruct z as [|p|p]; [reflexivity|..]; simpl.
  - unfold NilZero.string_of_uint.
    pose proof (DecimalPos.Unsigned.to_uint_nonnil p) as Hnil.
    replace (match Pos.to_uint p with
             | Decimal.Nil => "0"
             | _ => NilEmpty.string_of_uint (Pos.to_uint p)
             end) with (string_of_list_ascii (uintChars (Pos.to_uint p))).
    2:{ unfold uintChars. rewrite string_of_list_ascii_of_string.
        destruct (Pos.to_uint p); congruence. }
    apply StringToNumber_digits.
    + apply uintChars_nonempty.
    + apply uintChars_digits.
    + rewrite digitsValue_uint. unfold Z.of_uint.
      now rewrite DecimalPos.Unsigned.of_to.
  - unfold NilZero.string_of_uint.
    pose proof (DecimalPos.Unsigned.to_uint_nonnil p) as Hnil.
    replace (match Pos.to_uint p with
             | Decimal.Nil => "0"
             | _ => NilEmpty.string_of_uint (Pos.to_uint p)
             end) with (string_of_list_ascii (uintChars (Pos.to_uint p))).
    2:{ unfold uintChars. rewrite string_of_list_ascii_of_string.
        destruct (Pos.to_uint p); congruence. }
    unfold StringToNumber.
    change (list_ascii_of_string (String "-" ?s))
      with ("-"%char :: list_ascii_of_string s).
    rewrite list_ascii_of_string_of_list_ascii.
    rewrite trimChars_id.
    2:{ intros c [<-|Hin]; [reflexivity|]. apply digit_not_space.
        now apply (proj1 (forallb_forall isDigit _)
                     (uintChars_digits (Pos.to_uint p))). }
    change (("-" =? "+")%char) with false.
    change (("-" =? "-")%char) with true. cbv iota.
    rewrite (signedDecimal_digits true _ (Z.pos p)).
    + reflexivity.
    + apply uintChars_nonempty.
    + apply uintChars_digits.
    + rewrite digitsValue_uint. unfold Z.of_uint.
      now rewrite DecimalPos.Unsigned.of_to.
Qed.

(** ** The app-json strategy *)

(** Rewrites lookups in objects that were just written to. *)
Ltac object_lookups :=
  repeat first
    [ rewrite get_set_same
    | rewrite get_set_other by discriminate ].







Lemma ToNumber_encodeBuildNumber (platform : Platform) (n : Z) :
  ToNumber (encodeBuildNumber platform n) = Some (Finite n).
Proof.
  destruct platform; simpl; [apply StringToNumber_integerToString | reflexivity].
Qed.


Section AppJsonStrategy.

Open Scope Z_scope.

Variable resolve : string -> string -> string.
Variable expoConfig : outcome json.

Lemma readJson_writeFile (fs : files) (path : string) (doc : obj json) :
  readJson (writeFile fs path doc) path = Return doc.
Proof. unfold readJson, writeFile. now rewrite String.eqb_refl. Qed.

(** The file the strategy wrote is the file it reads next. *)
Lemma resolveExpoConfig_after_write
  (fs : files) (projectDir : string) (source : option string)
  (doc doc' : obj json) (path : string) :
  resolveExpoConfig resolve expoConfig fs projectDir source
  = Return (doc, path) ->
  resolveExpoConfig resolve expoConfig (writeFile fs path doc') projectDir
    source = Return (doc', path).
Proof.
  unfold resolveExpoConfig.
  destruct (truthy_opt source).
  - destruct (readJson fs _) as [config|m]; simpl; [|discriminate].
    intros [= <- <-]. now rewrite readJson_writeFile.
  - destruct (readJson fs (resolve projectDir "app.json")) as [config|m].
    + intros [= <- <-]. now rewrite readJson_writeFile.
    + destruct (existsSync fs _ || existsSync fs _); [|discriminate].
      destruct expoConfig as [resolved|m']; [|discriminate].
      intros [= _ <-]. now rewrite readJson_writeFile.
Qed.

(** One run of the strategy on a field that holds the number [N]. *)
Lemma bumpFromAppJson_numeric
  (platform : Platform) (fs : files) (projectDir : string)
  (source : option string) (doc : obj json) (path : string)
  (raw : json) (N : Z) :
  resolveExpoConfig resolve expoConfig fs projectDir source
  = Return (doc, path) ->
  snd (selectField platform doc) = Some raw ->
  ToNumber raw = Some (Finite N) ->
  bumpFromAppJson resolve expoConfig platform fs projectDir source
  = Some (Return
            ({| previousValue := N;
                newValue := N + 1;
                field := fst (selectField platform doc);
                bump_version := None |},
             writeFile fs path
               (setNestedValue doc (fst (selectField platform doc))
                  (encodeBuildNumber platform (N + 1))))).
Proof.
  intros Hres Hraw Hnum. unfold bumpFromAppJson. rewrite Hres.
  destruct (selectField platform doc) as [f r]. simpl in Hraw. subst r.
  now rewrite Hnum.
Qed.




End AppJsonStrategy.



(** ** The git-tag strategy *)







(** ** The model on the cases of the repository's tests *)

Example parseVersionFromTag_prefixed :
  parseVersionFromTag "v1.2.3" = Some {| major := 1; minor := 2; patch := 3 |}
  /\ parseVersionFromTag "release-2.0.0"
     = Some {| major := 2; minor := 0; patch := 0 |}
  /\ parseVersionFromTag "v3.1.4-beta.1"
     = Some {| major := 3; minor := 1; patch := 4 |}
  /\ parseVersionFromTag "just-a-name" = None
  /\ parseVersionFromTag "" = None.
Proof. repeat split. Qed.

Example StringToNumber_samples :
  map StringToNumber ["42"; " 42 "; ""; "abc"; "-7"; "0x1F"; "Infinity"; "1.5"]
  = [Some (Finite 42); Some (Finite 42); Some (Finite 0); Some NaN;
     Some (Finite (-7)); Some (Finite 31); Some PosInfinity; None].
Proof. reflexivity. Qed.

Example parseConfigFile_missing_build :
  parseConfigFile "app-build.json" (Content (Some (JObj [])))
  = Throw ("Invalid config in " ++ dquote ++ "app-build.json" ++ dquote ++ ":"
           ++ newline
           ++ "  - build: Invalid input: expected record, received undefined").
Proof. reflexivity. Qed.

Example parseConfigFile_field_path :
  exists message,
    parseConfigFile "app-build.json"
      (Content (Some (JObj [("build",
         JObj [("production",
           JObj [("ios",
             JObj [("scheme", JNum (JInt 123));
                   ("buildConfiguration", JStr "Release");
                   ("exportMethod", JStr "app-store")])])])])))
    = Throw message
    /\ occurs "build.production.ios.scheme" message.
Proof.
  eexists. split; [reflexivity|].
  exists ("Invalid config in " ++ dquote ++ "app-build.json" ++ dquote ++ ":"
          ++ newline ++ "  - "),
    ": Invalid input: expected string, received number".
  reflexivity.
Qed.

Example getProfileConfig_lists_profiles :
  getProfileConfig exampleConfig "staging" ios
  = Throw ("Build profile " ++ dquote ++ "staging" ++ dquote
           ++ " not found. Available profiles: "
           ++ "development, production, ios-only, empty").
Proof. reflexivity. Qed.

Example bumpFromAppJson_starts_at_one :
  match bumpFromAppJson joinPath (Throw "no dynamic config") android
          (projectWith [("expo", JObj [("name", JStr "MyApp")])]) "/app" None
  with
  | Some (Return (result, fs)) =>
      result = {| previousValue := 0; newValue := 1;
                  field := "expo.android.versionCode"; bump_version := None |}
      /\ fs "/app/app.json"
         = Document [("expo",
                      JObj [("name", JStr "MyApp");
                            ("android",
                             JObj [("versionCode", JNum (JInt 1))])])]
  | _ => False
  end.
Proof. split; reflexivity. Qed.


(** * Further properties of the code *)

(** ** Configuration merger *)


(** X2: on android the resolved settings are exactly the object stored in
    the selected profile: nothing is defaulted (an [aab] the file omits
    stays undefined) and the iOS inputs have no effect; [ios] stays
    undefined. *)
Theorem mergeActionInputs_android_stored
  (config : AppBuildConfig) (inputs : ActionInputs)
  (profiles : obj BuildProfile) (profile : BuildProfile)
  (stored : AndroidBuildConfig) :
  in_platform inputs = android ->
  build config = Some profiles ->
  get profiles (or_else (in_profile inputs) "production") = Some profile ->
  profile_android profile = Some stored ->
  exists resolved,
    mergeActionInputs config inputs = Return resolved
    /\ rc_android resolved = Some stored
    /\ rc_ios resolved = None.
Proof.
  intros Hp Hb Hget Hs. destruct inputs; simpl in *. subst.
  unfold mergeActionInputs, getProfileConfig, DEFAULT_PROFILE. simpl.
  rewrite Hb, Hget. simpl. rewrite Hs. simpl.
  eexists. repeat split.
Qed.

Lemma mergeActionInputs_android_stored_witness :
  in_platform (exampleInputs android "development" (Some "Other") (Some "Debug"))
  = android
  /\ build exampleConfig = Some exampleProfiles
  /\ exists resolved,
      mergeActionInputs exampleConfig
        (exampleInputs android "development" (Some "Other") (Some "Debug"))
      = Return resolved
      /\ rc_android resolved = Some {| buildType := debug; aab := None |}
      /\ rc_ios resolved = None.
Proof.
  split; [reflexivity|]. split; [reflexivity|].
  exact (mergeActionInputs_android_stored exampleConfig
           (exampleInputs android "development" (Some "Other") (Some "Debug"))
           exampleProfiles _ _ eq_refl eq_refl eq_refl eq_refl).
Defined.

Lemma or_else_nonempty (a b : string) : b <> "" -> or_else a b <> "".
Proof.
  unfold or_else, truthy. intros Hb.
  destruct (String.eqb_spec a ""); simpl; congruence.
Qed.

(** X3: in every resolved config the profile name, the Node version and
    the Fastlane version are not empty, and a version section, when the
    config file has one, always carries a source: the one of the file, or
    [app.json]; its other fields are those of the file. *)
Theorem mergeActionInputs_defaults_filled
  (config : AppBuildConfig) (inputs : ActionInputs) (resolved : ResolvedConfig) :
  mergeActionInputs config inputs = Return resolved ->
  rc_profile resolved <> ""
  /\ rc_nodeVersion resolved <> ""
  /\ rc_fastlaneVersion resolved <> ""
  /\ match version config with
     | None => rc_versionConfig resolved = None
     | Some v =>
         exists v',
           rc_versionConfig resolved = Some v'
           /\ source v' = Some (match source v with
                                | Some s => s
                                | None => "app.json"
                                end)
           /\ autoIncrement v' = autoIncrement v
           /\ strategy v' = strategy v
           /\ gitTagPattern v' = gitTagPattern v
     end.
Proof.
  unfold mergeActionInputs.
  destruct (getProfileConfig config _ (in_platform inputs)) as [pc|m];
    simpl; [|discriminate].
  assert (Hd : forall a b, b <> "" -> or_else a b <> "")
    by exact or_else_nonempty.
  destruct (in_platform inputs); intros [= <-]; simpl;
    (repeat split; [apply Hd; discriminate..|]);
    destruct (version config) as [v|]; try reflexivity;
    eexists; repeat split.
Qed.

Lemma mergeActionInputs_defaults_filled_witness :
  exists resolved,
    mergeActionInputs versionOnlyConfig (exampleInputs ios "" None None)
    = Return resolved
    /\ rc_profile resolved = "production"
    /\ rc_versionConfig resolved
       = Some {| autoIncrement := true; source := Some "app.json";
                 strategy := Some git_tag; gitTagPattern := None |}
    /\ rc_profile resolved <> "".
Proof.
  eexists. split; [reflexivity|]. split; [reflexivity|]. split; [reflexivity|].
  exact (proj1 (mergeActionInputs_defaults_filled versionOnlyConfig
                  (exampleInputs ios "" None None) _ eq_refl)).
Defined.

(** ** Schema validation *)








(** X5: top-level keys the schema does not know are dropped: adding or
    changing one does not change what validation answers. *)
Theorem AppBuildConfigSchema_strips_unknown
  (top : obj json) (k : string) (v : json) :
  ~ In k ["build"; "submit"; "signing"; "updates"; "version"] ->
  AppBuildConfigSchema (Some (JObj (set top k v)))
  = AppBuildConfigSchema (Some (JObj top)).
Proof.
  intros Hk. unfold AppBuildConfigSchema, z_object, shape.
  rewrite !get_set_other; [reflexivity|..];
    intros ->; apply Hk; simpl; auto 6.
Qed.

Lemma AppBuildConfigSchema_strips_unknown_witness :
  ~ In "$schema" ["build"; "submit"; "signing"; "updates"; "version"]
  /\ AppBuildConfigSchema
       (Some (JObj [("build", JObj [("p", JObj [])]);
                    ("$schema", JStr "https://example.com/schema.json")]))
     = AppBuildConfigSchema (Some (JObj [("build", JObj [("p", JObj [])])])).
Proof.
  assert (H : ~ In "$schema" ["build"; "submit"; "signing"; "updates"; "version"]).
  { simpl. intros [H|[H|[H|[H|[H|[]]]]]]; discriminate H. }
  split; [exact H|].
  exact (AppBuildConfigSchema_strips_unknown
           [("build", JObj [("p", JObj [])])] "$schema"
           (JStr "https://example.com/schema.json") H).
Defined.

(** ** Writing a value at a dotted path *)


Lemma set_get_same {A : Type} (o : obj A) (k : string) (v : A) :
  get o k = Some v -> set o k v = o.
Proof.
  induction o as [|[k' v'] rest IH]; simpl; [discriminate|].
  destruct (k' =? k) eqn:E.
  - now intros [= ->].
  - intros H. now rewrite IH.
Qed.

Lemma splitDot_nonempty (s : string) : splitDot s <> [].
Proof.
  induction s as [|c s IH]; simpl; [discriminate|].
  destruct (c =? ".")%char; [discriminate|].
  destruct (splitDot s); [contradiction | discriminate].
Qed.

Lemma setPath_cons (props : obj json) (key k2 : string) (rest : list string)
  (value : json) :
  setPath (JObj props) (key :: k2 :: rest) value
  = JObj (set props key
            (setPath (childObject (get props key)) (k2 :: rest) value)).
Proof. reflexivity. Qed.



(** The document [setNestedValue] returns, as a JSON value. *)
Lemma setNestedValue_setPath (doc : obj json) (dottedPath : string) (x : json) :
  JObj (setNestedValue doc dottedPath x)
  = setPath (JObj doc) (splitDot dottedPath) x.
Proof.
  unfold setNestedValue.
  destruct (splitDot dottedPath) as [|k [|k2 rest]]; reflexivity.
Qed.


Lemma setPath_lookup_same (ks : list string) :
  forall (v value : json),
    ks <> [] ->
    arrayOnPath (childObject (Some v)) ks = false ->
    lookupPath (setPath (childObject (Some v)) ks value) ks = Some value.
Proof.
  induction ks as [|key rest IH]; intros v value Hne Harr; [contradiction|].
  destruct (childObject (Some v)) as [| | | | |props] eqn:Ev;
    try (destruct v; discriminate Ev).
  - discriminate Harr.
  - destruct rest as [|k2 rest'].
    + simpl. now rewrite get_set_same.
    + rewrite setPath_cons. cbn [lookupPath property].
      rewrite get_set_same.
      destruct (get props key) as [child|] eqn:Hc.
      * apply IH; [discriminate|].
        cbn [arrayOnPath] in Harr. rewrite Hc in Harr.
        destruct child; try exact Harr; destruct rest'; reflexivity.
      * change (childObject None) with (childObject (Some (JObj []))).
        apply IH; [discriminate | destruct rest'; reflexivity].
Qed.

Lemma lookupPath_setNestedValue
  (doc : obj json) (dottedPath : string) (value : json) :
  arrayOnPath (JObj doc) (splitDot dottedPath) = false ->
  lookupPath (JObj (setNestedValue doc dottedPath value)) (splitDot dottedPath)
  = Some value.
Proof.
  intros Harr. rewrite setNestedValue_setPath.
  exact (setPath_lookup_same (splitDot dottedPath) (JObj doc) value
           (splitDot_nonempty dottedPath) Harr).
Qed.



Lemma setPath_array_unchanged (ks : list string) :
  forall (v value : json),
    arrayOnPath v ks = true -> setPath v ks value = v.
Proof.
  induction ks as [|key rest IH]; intros v value Harr; [discriminate|].
  destruct v as [| | | | |props]; try reflexivity.
  destruct rest as [|k2 rest']; [discriminate|].
  rewrite setPath_cons. cbn [arrayOnPath] in Harr.
  destruct (get props key) as [child|] eqn:Hc; [|discriminate].
  assert (Hchild : childObject (Some child) = child).
  { destruct child; try reflexivity; discriminate Harr. }
  rewrite Hchild, (IH child value Harr).
  now rewrite (set_get_same _ _ _ Hc).
Qed.

Lemma setNestedValue_array_unchanged
  (doc : obj json) (dottedPath : string) (value : json) :
  arrayOnPath (JObj doc) (splitDot dottedPath) = true ->
  setNestedValue doc dottedPath value = doc.
Proof.
  intros Harr.
  assert (H : JObj (setNestedValue doc dottedPath value) = JObj doc).
  { rewrite setNestedValue_setPath.
    now apply setPath_array_unchanged. }
  now injection H.
Qed.



(** ** The app-json strategy on a file without build number *)

Lemma selectField_absent (platform : Platform) (doc : obj json) :
  snd (selectField platform doc) = None ->
  fst (selectField platform doc) = platformField platform.
Proof.
  unfold selectField.
  destruct platform;
    repeat match goal with
      | |- context [match ?x with Some _ => _ | None => _ end] => destruct x
      end; simpl; try discriminate; reflexivity.
Qed.

(** The strategy reads the platform's own field first. *)
Lemma selectField_of_lookup (platform : Platform) (doc : obj json) (v : json) :
  lookupPath (JObj doc) (splitDot (platformField platform)) = Some v ->
  selectField platform doc = (platformField platform, Some v).
Proof.
  unfold selectField.
  destruct platform; cbn;
    destruct (get doc "expo") as [[| | | | |expo]|]; cbn; try discriminate.
  - destruct (get expo "ios") as [[| | | | |i]|]; cbn; try discriminate.
    destruct (get i "buildNumber"); [now intros [= ->] | discriminate].
  - destruct (get expo "android") as [[| | | | |a]|]; cbn; try discriminate.
    destruct (get a "versionCode"); [now intros [= ->] | discriminate].
Qed.

Section AppJsonFromNothing.

Variable resolve : string -> string -> string.
Variable expoConfig : outcome json.

Lemma bumpFromAppJson_absent
  (platform : Platform) (fs : files) (projectDir : string)
  (source : option string) (doc : obj json) (path : string) :
  resolveExpoConfig resolve expoConfig fs projectDir source
  = Return (doc, path) ->
  snd (selectField platform doc) = None ->
  bumpFromAppJson resolve expoConfig platform fs projectDir source
  = Some (Return
            ({| previousValue := 0; newValue := 1;
                field := platformField platform; bump_version := None |},
             writeFile fs path
               (setNestedValue doc (platformField platform)
                  (encodeBuildNumber platform 1)))).
Proof.
  intros Hres Hraw. unfold bumpFromAppJson. rewrite Hres.
  pose proof (selectField_absent platform doc Hraw) as Hf.
  destruct (selectField platform doc) as [f r]. simpl in *. now subst.
Qed.

(** X9: on a config file that has no build number for the platform, and no
    array on the way to the platform's field, the app-json strategy counts
    from 0: the first run returns 1 and creates the field, which then holds
    1; the second run returns 2. *)
Theorem bumpFromAppJson_from_nothing
  (platform : Platform) (fs : files) (projectDir : string)
  (source : option string) (doc : obj json) (path : string) :
  resolveExpoConfig resolve expoConfig fs projectDir source
  = Return (doc, path) ->
  snd (selectField platform doc) = None ->
  arrayOnPath (JObj doc) (splitDot (platformField platform)) = false ->
  let f := platformField platform in
  let doc1 := setNestedValue doc f (encodeBuildNumber platform 1) in
  let fs1 := writeFile fs path doc1 in
  bumpFromAppJson resolve expoConfig platform fs projectDir source
  = Some (Return ({| previousValue := 0; newValue := 1; field := f;
                     bump_version := None |}, fs1))
  /\ selectField platform doc1 = (f, Some (encodeBuildNumber platform 1))
  /\ bumpFromAppJson resolve expoConfig platform fs1 projectDir source
     = Some (Return ({| previousValue := 1; newValue := 2; field := f;
                        bump_version := None |},
                     writeFile fs1 path
                       (setNestedValue doc1 f (encodeBuildNumber platform 2)))).
Proof.
  intros Hres Hraw Harr f doc1 fs1.
  assert (Hsel : selectField platform doc1
                 = (f, Some (encodeBuildNumber platform 1))).
  { apply selectField_of_lookup. now apply lookupPath_setNestedValue. }
  split; [now apply bumpFromAppJson_absent|]. split; [exact Hsel|].
  pose proof (bumpFromAppJson_numeric resolve expoConfig platform fs1
                projectDir source doc1 path (encodeBuildNumber platform 1) 1
                (resolveExpoConfig_after_write resolve expoConfig fs projectDir
                   source doc doc1 path Hres)) as Hrun.
  rewrite Hsel in Hrun.
  apply Hrun; [reflexivity | apply ToNumber_encodeBuildNumber].
Qed.

(** X10: when an array stands on the way to the platform's field (the
    [expo] value or the platform object is an array), the strategy finds no
    build number, returns 1 and writes the document back as it was, so the
    next run returns 1 again: the counter does not advance. *)
Theorem bumpFromAppJson_array_stuck
  (platform : Platform) (fs : files) (projectDir : string)
  (source : option string) (doc : obj json) (path : string) :
  resolveExpoConfig resolve expoConfig fs projectDir source
  = Return (doc, path) ->
  snd (selectField platform doc) = None ->
  arrayOnPath (JObj doc) (splitDot (platformField platform)) = true ->
  let result := {| previousValue := 0; newValue := 1;
                   field := platformField platform; bump_version := None |} in
  let fs1 := writeFile fs path doc in
  bumpFromAppJson resolve expoConfig platform fs projectDir source
  = Some (Return (result, fs1))
  /\ bumpFromAppJson resolve expoConfig platform fs1 projectDir source
     = Some (Return (result, writeFile fs1 path doc)).
Proof.
  intros Hres Hraw Harr result fs1.
  pose proof (setNestedValue_array_unchanged doc (platformField platform)
                (encodeBuildNumber platform 1) Harr) as Hsame.
  split.
  - rewrite (bumpFromAppJson_absent platform fs projectDir source doc path
               Hres Hraw).
    now rewrite Hsame.
  - rewrite (bumpFromAppJson_absent platform fs1 projectDir source doc path
               (resolveExpoConfig_after_write resolve expoConfig fs projectDir
                  source doc doc path Hres) Hraw).
    now rewrite Hsame.
Qed.

End AppJsonFromNothing.

Lemma bumpFromAppJson_from_nothing_witness :
  resolveExpoConfig joinPath (Throw "no dynamic config")
    (projectWith [("name", JStr "demo")]) "/app" None
  = Return ([("name", JStr "demo")], "/app/app.json")
  /\ snd (selectField ios [("name", JStr "demo")]) = None
  /\ arrayOnPath (JObj [("name", JStr "demo")])
       (splitDot (platformField ios)) = false
  /\ selectField ios
       (setNestedValue [("name", JStr "demo")] (platformField ios)
          (encodeBuildNumber ios 1))
     = ("expo.ios.buildNumber", Some (JStr "1")).
Proof.
  split; [reflexivity|]. split; [reflexivity|]. split; [reflexivity|].
  exact (proj1 (proj2 (bumpFromAppJson_from_nothing joinPath
                         (Throw "no dynamic config") ios
                         (projectWith [("name", JStr "demo")]) "/app" None
                         [("name", JStr "demo")] "/app/app.json"
                         eq_refl eq_refl eq_refl))).
Defined.

Lemma bumpFromAppJson_array_stuck_witness :
  resolveExpoConfig joinPath (Throw "no dynamic config")
    (projectWith [("expo", JArr [])]) "/app" None
  = Return ([("expo", JArr [])], "/app/app.json")
  /\ snd (selectField android [("expo", JArr [])]) = None
  /\ arrayOnPath (JObj [("expo", JArr [])])
       (splitDot (platformField android)) = true
  /\ bumpFromAppJson joinPath (Throw "no dynamic config") android
       (projectWith [("expo", JArr [])]) "/app" None
     = Some (Return
               ({| previousValue := 0; newValue := 1;
                   field := "expo.android.versionCode";
                   bump_version := None |},
                writeFile (projectWith [("expo", JArr [])]) "/app/app.json"
                  [("expo", JArr [])])).
Proof.
  split; [reflexivity|]. split; [reflexivity|]. split; [reflexivity|].
  exact (proj1 (bumpFromAppJson_array_stuck joinPath
                  (Throw "no dynamic config") android
                  (projectWith [("expo", JArr [])]) "/app" None
                  [("expo", JArr [])] "/app/app.json"
                  eq_refl eq_refl eq_refl)).
Defined.

(** ** The git-tag strategy: versions and tags *)

Lemma list_ascii_of_string_app (a b : string) :
  list_ascii_of_string (a ++ b)
  = (list_ascii_of_string a ++ list_ascii_of_string b)%list.
Proof. induction a as [|c a IH]; simpl; [reflexivity | now rewrite IH]. Qed.

(** The decimal text of a natural number: digits, at least one, that read
    back as the number. *)
Lemma integerChars_natural (z : Z) :
  (0 <= z)%Z ->
  integerChars z <> []
  /\ forallb isDigit (integerChars z) = true
  /\ digitsValue 10 0 (integerChars z) = Some z.
Proof.
  unfold integerChars, integerToString. destruct z as [|p|p]; intros Hz.
  - repeat split. discriminate.
  - simpl. unfold NilZero.string_of_uint.
    pose proof (DecimalPos.Unsigned.to_uint_nonnil p) as Hnil.
    replace (match Pos.to_uint p with
             | Decimal.Nil => "0"
             | _ => NilEmpty.string_of_uint (Pos.to_uint p)
             end) with (NilEmpty.string_of_uint (Pos.to_uint p))
      by (destruct (Pos.to_uint p); congruence).
    fold (uintChars (Pos.to_uint p)).
    split; [apply uintChars_nonempty|]. split; [apply uintChars_digits|].
    rewrite digitsValue_uint. unfold Z.of_uint.
    now rewrite DecimalPos.Unsigned.of_to.
  - lia.
Qed.

Lemma takeWhile_app_stop {A : Type} (f : A -> bool) (a rest : list A) :
  forallb f a = true ->
  match rest with
  | x :: _ => f x = false
  | [] => True
  end ->
  takeWhile f (a ++ rest) = a /\ dropWhile f (a ++ rest) = rest.
Proof.
  intros Ha Hrest. induction a as [|y a IH]; simpl in *.
  - destruct rest as [|x r]; simpl; [auto|]. now rewrite Hrest.
  - apply andb_prop in Ha as [Hy Ha]. rewrite Hy.
    destruct (IH Ha) as [-> ->]. auto.
Qed.














(** ** Writing the version to the config file, best effort *)

Section BestEffortWrite.

Variable resolve : string -> string -> string.

Lemma writeVersionToAppJson_other
  (fs : files) (projectDir : string) (source : option string)
  (field : string) (value : json)
  (extraMutations : option (obj json -> option (obj json))) (other : string) :
  other <> resolve projectDir (nullish source "app.json") ->
  writeVersionToAppJson resolve fs projectDir source field value
    extraMutations other = fs other.
Proof.
  intros Hne. unfold writeVersionToAppJson.
  destruct (readJson fs _) as [doc|m]; [|reflexivity].
  apply String.eqb_neq in Hne.
  destruct extraMutations as [mutate|];
    [destruct (mutate _); [|reflexivity]|]; unfold writeFile; now rewrite Hne.
Qed.

Lemma writeVersionToAppJson_unreadable
  (fs : files) (projectDir : string) (source : option string)
  (field : string) (value : json)
  (extraMutations : option (obj json -> option (obj json))) (m : string) :
  readJson fs (resolve projectDir (nullish source "app.json")) = Throw m ->
  writeVersionToAppJson resolve fs projectDir source field value
    extraMutations = fs.
Proof. intros H. unfold writeVersionToAppJson. now rewrite H. Qed.

Lemma writeVersionToAppJson_document
  (fs : files) (projectDir : string) (source : option string)
  (field : string) (value : json) (doc : obj json) :
  readJson fs (resolve projectDir (nullish source "app.json")) = Return doc ->
  writeVersionToAppJson resolve fs projectDir source field value None
    (resolve projectDir (nullish source "app.json"))
  = Document (setNestedValue doc field value).
Proof.
  intros H. unfold writeVersionToAppJson. rewrite H.
  unfold writeFile. now rewrite String.eqb_refl.
Qed.

(** The document the git-tag strategy writes. *)
Lemma setExpoVersion_after_field
  (platform : Platform) (doc : obj json) (value : json) (v : string) :
  arrayOnPath (JObj doc) (splitDot (platformField platform)) = false ->
  exists doc',
    setExpoVersion v (setNestedValue doc (platformField platform) value)
    = Some doc'
    /\ lookupPath (JObj doc') (splitDot (platformField platform)) = Some value
    /\ lookupPath (JObj doc') ["expo"; "version"] = Some (JStr v).
Proof.
  intros Harr.
  pose proof (lookupPath_setNestedValue doc (platformField platform) value
                Harr) as Hlook.
  revert Hlook. unfold setExpoVersion.
  set (doc1 := setNestedValue doc (platformField platform) value).
  destruct platform; cbn [platformField];
    match goal with
    | |- context [splitDot ?f] =>
        let l := eval vm_compute in (splitDot f) in
        change (splitDot f) with l
    end;
    cbn [lookupPath property];
    destruct (get doc1 "expo") as [[| | | | |expo]|] eqn:Eexpo;
    try discriminate; cbn [falsy]; rewrite Eexpo; intros Hlook;
    eexists; (split; [reflexivity|]);
    cbn [lookupPath property]; object_lookups;
    cbn [lookupPath property]; object_lookups; auto.
Qed.

(** X15: when the config file is a JSON object with no array on the way
    to the platform's field, the git-tag strategy writes both the build
    number, encoded for the platform, at the platform's field and the
    version string at [expo.version], and touches no other file. *)
Theorem bumpFromGitTag_writes_both
  (gitDescribe : string -> outcome string)
  (platform : Platform) (fs : files) (projectDir : string)
  (source gitTagPattern : option string) (doc : obj json) :
  readJson fs (resolve projectDir (nullish source "app.json")) = Return doc ->
  arrayOnPath (JObj doc) (splitDot (platformField platform)) = false ->
  let run :=
    bumpFromGitTag resolve gitDescribe platform fs projectDir source
      gitTagPattern in
  exists doc' v,
    snd run (resolve projectDir (nullish source "app.json")) = Document doc'
    /\ field (fst run) = platformField platform
    /\ lookupPath (JObj doc') (splitDot (platformField platform))
       = Some (encodeBuildNumber platform (newValue (fst run)))
    /\ bump_version (fst run) = Some v
    /\ lookupPath (JObj doc') ["expo"; "version"] = Some (JStr v)
    /\ forall other,
         other <> resolve projectDir (nullish source "app.json") ->
         snd run other = fs other.
Proof.
  intros Hread Harr. unfold bumpFromGitTag.
  cbn [fst snd field newValue bump_version].
  set (new := nextVersion _).
  destruct (setExpoVersion_after_field platform doc
              (encodeBuildNumber platform (buildNumberOf new))
              (versionString new) Harr) as (doc' & Hset & Hfield & Hversion).
  exists doc', (versionString new).
  split.
  { unfold writeVersionToAppJson. rewrite Hread, Hset.
    unfold writeFile. now rewrite String.eqb_refl. }
  repeat split; auto.
  intros other Hne. now apply writeVersionToAppJson_other.
Qed.

(** X16: when the config file is missing, unreadable or not JSON, the
    git-tag strategy still returns its result, the same as with any other
    files, and leaves all the files as they were. *)
Theorem bumpFromGitTag_best_effort
  (gitDescribe : string -> outcome string)
  (platform : Platform) (fs fs' : files) (projectDir : string)
  (source gitTagPattern : option string) (m : string) :
  readJson fs (resolve projectDir (nullish source "app.json")) = Throw m ->
  snd (bumpFromGitTag resolve gitDescribe platform fs projectDir source
         gitTagPattern) = fs
  /\ fst (bumpFromGitTag resolve gitDescribe platform fs projectDir source
            gitTagPattern)
     = fst (bumpFromGitTag resolve gitDescribe platform fs' projectDir source
              gitTagPattern).
Proof.
  intros Hread. unfold bumpFromGitTag. cbn [fst snd].
  split; [|reflexivity].
  now apply writeVersionToAppJson_unreadable with (m := m).
Qed.

End BestEffortWrite.

Lemma bumpFromGitTag_writes_both_witness :
  readJson (projectWith [("name", JStr "demo")])
    (joinPath "/app" (nullish None "app.json"))
  = Return [("name", JStr "demo")]
  /\ arrayOnPath (JObj [("name", JStr "demo")])
       (splitDot (platformField android)) = false
  /\ exists doc' v,
      snd (bumpFromGitTag joinPath (fun _ => Return "v1.2.3") android
             (projectWith [("name", JStr "demo")]) "/app" None None)
        (joinPath "/app" (nullish None "app.json"))
      = Document doc'
      /\ lookupPath (JObj doc') ["expo"; "android"; "versionCode"]
         = Some (JNum (JInt 10204))
      /\ v = "1.2.4"
      /\ lookupPath (JObj doc') ["expo"; "version"] = Some (JStr v).
Proof.
  split; [reflexivity|]. split; [reflexivity|].
  destruct (bumpFromGitTag_writes_both joinPath (fun _ => Return "v1.2.3")
              android (projectWith [("name", JStr "demo")]) "/app" None None
              [("name", JStr "demo")] eq_refl eq_refl)
    as (doc' & v & Hdoc & _ & Hfield & Hv & Hversion & _).
  exists doc', v. split; [exact Hdoc|]. split; [exact Hfield|].
  split; [|exact Hversion].
  cbv in Hv. now injection Hv as <-.
Defined.

Lemma bumpFromGitTag_best_effort_witness :
  readJson (fun _ => Absent) (joinPath "/app" (nullish None "app.json"))
  = Throw "ENOENT: no such file or directory, open '/app/app.json'"
  /\ fst (bumpFromGitTag joinPath (fun _ => Throw "no tag") ios
            (fun _ => Absent) "/app" None None)
     = {| previousValue := 0; newValue := 10000;
          field := "expo.ios.buildNumber"; bump_version := Some "1.0.0" |}.
Proof.
  split; [reflexivity|].
  rewrite (proj2 (bumpFromGitTag_best_effort joinPath (fun _ => Throw "no tag")
                    ios (fun _ => Absent)
                    (projectWith [("name", JStr "demo")]) "/app" None None
                    _ eq_refl)).
  reflexivity.
Defined.

(** ** The strategies git-commit-count and timestamp *)

Lemma digitsValue_app (radix : nat) (a b : list ascii) :
  forall acc : Z,
    digitsValue radix acc (a ++ b)
    = match digitsValue radix acc a with
      | Some v => digitsValue radix v b
      | None => None
      end.
Proof.
  induction a as [|c a IH]; intros acc; simpl; [reflexivity|].
  destruct (digitValue radix c); [apply IH | reflexivity].
Qed.

Lemma isDigit_not_sign (c : ascii) :
  isDigit c = true ->
  isWhiteSpace c = false /\ (c =? "-")%char = false /\ (c =? "+")%char = false.
Proof.
  intros H. split; [now apply digit_not_space|].
  pose proof (digit_not_radix c H) as Hnot.
  repeat (apply orb_false_elim in Hnot as [Hnot ?]). auto.
Qed.

Lemma sign_not_digit (c : ascii) :
  ((c =? "-") || (c =? "+"))%char = true ->
  isDigit c = false /\ isWhiteSpace c = false.
Proof.
  destruct c as [[] [] [] [] [] [] [] []]; try discriminate; now split.
Qed.

Lemma isDigit_digitValue (c : ascii) :
  isDigit c = true -> exists d, digitValue 10 c = Some d.
Proof.
  destruct c as [[] [] [] [] [] [] [] []]; try discriminate;
    intros _; eexists; reflexivity.
Qed.

Lemma digitsValue_defined (l : list ascii) :
  forallb isDigit l = true ->
  forall acc, exists z, digitsValue 10 acc l = Some z.
Proof.
  induction l as [|c l IH]; intros Hl acc; [now exists acc|].
  cbn [forallb] in Hl. apply andb_prop in Hl as [Hc Hl].
  destruct (isDigit_digitValue c Hc) as (d & Hd).
  cbn [digitsValue]. rewrite Hd. apply IH, Hl.
Qed.

Lemma takeWhile_forallb {A : Type} (f : A -> bool) (l : list A) :
  forallb f (takeWhile f l) = true.
Proof.
  induction l as [|x l IH]; simpl; [reflexivity|].
  destruct (f x) eqn:E; simpl; [now rewrite E|reflexivity].
Qed.

(** [parseInt] reads the leading digits of a text that starts with one. *)
Lemma parseIntDecimal_digits (digits : list ascii) (rest : string) (z : Z) :
  digits <> [] -> forallb isDigit digits = true ->
  digitsValue 10 0 digits = Some z ->
  startsWithDigit rest = false ->
  parseIntDecimal (string_of_list_ascii digits ++ rest) = Some z.
Proof.
  intros Hne Hd Hv Hrest. unfold parseIntDecimal.
  rewrite list_ascii_of_string_app, list_ascii_of_string_of_list_ascii.
  assert (Hstop : match list_ascii_of_string rest with
                  | x :: _ => isDigit x = false
                  | [] => True
                  end) by (destruct rest; simpl in *; auto).
  destruct (takeWhile_app_stop isDigit digits _ Hd Hstop) as [Htake _].
  destruct digits as [|c ds]; [contradiction|].
  pose proof Hd as Hd'. cbn [forallb] in Hd'.
  apply andb_prop in Hd' as [Hc _].
  destruct (isDigit_not_sign c Hc) as (Hw & Hm & Hp).
  change ((c :: ds) ++ list_ascii_of_string rest)%list
    with (c :: (ds ++ list_ascii_of_string rest))%list in *.
  cbn [dropWhile]. rewrite Hw. cbv zeta. rewrite Hm, Hp. cbn [orb].
  rewrite Htake, Hv. reflexivity.
Qed.

Lemma dropWhile_head {A : Type} (f : A -> bool) (l : list A) :
  match dropWhile f l with
  | x :: _ => f x = false
  | [] => True
  end.
Proof.
  induction l as [|x l IH]; simpl; [exact I|].
  destruct (f x) eqn:E; [exact IH | exact E].
Qed.

Lemma dropWhile_keeps_last {A : Type} (f : A -> bool) (h : A) :
  f h = false ->
  forall pre : list A, exists q, dropWhile f (pre ++ [h]) = (q ++ [h])%list.
Proof.
  intros Hh. induction pre as [|x pre IH]; simpl.
  - rewrite Hh. now exists [].
  - destruct (f x); [exact IH|]. now exists (x :: pre).
Qed.

(** A trimmed text does not start with white space. *)
Lemma trimChars_head (l : list ascii) :
  match trimChars l with
  | c :: _ => isWhiteSpace c = false
  | [] => True
  end.
Proof.
  unfold trimChars. pose proof (dropWhile_head isWhiteSpace l) as H.
  destruct (dropWhile isWhiteSpace l) as [|h m]; [exact I|].
  cbn [rev].
  destruct (dropWhile_keeps_last isWhiteSpace h H (rev m)) as (q & ->).
  rewrite rev_app_distr. exact H.
Qed.

(** On a trimmed text, [parseInt] gives [NaN] exactly when no integer
    starts the text. *)
Lemma parseIntDecimal_trim (s : string) :
  match parseIntDecimal (trim s) with
  | None => noLeadingInteger (trim s) = true
  | Some _ => noLeadingInteger (trim s) = false
  end.
Proof.
  unfold parseIntDecimal, noLeadingInteger, trim.
  rewrite list_ascii_of_string_of_list_ascii.
  pose proof (trimChars_head (list_ascii_of_string s)) as Hhead.
  destruct (trimChars (list_ascii_of_string s)) as [|c rest]; [reflexivity|].
  cbn [dropWhile]. rewrite Hhead. cbv zeta.
  destruct ((c =? "-") || (c =? "+"))%char eqn:Es.
  - destruct rest as [|d rest]; [reflexivity|].
    cbn [takeWhile]. destruct (isDigit d) eqn:Ed; [|reflexivity].
    pose proof (takeWhile_forallb isDigit rest) as Hall.
    destruct (digitsValue_defined (d :: takeWhile isDigit rest)
                ltac:(cbn [forallb]; now rewrite Ed, Hall) 0%Z) as (z & ->).
    reflexivity.
  - cbn [takeWhile]. destruct (isDigit c) eqn:Ec; [|reflexivity].
    pose proof (takeWhile_forallb isDigit rest) as Hall.
    destruct (digitsValue_defined (c :: takeWhile isDigit rest)
                ltac:(cbn [forallb]; now rewrite Ec, Hall) 0%Z) as (z & ->).
    reflexivity.
Qed.

Section OtherStrategyFacts.

Variable resolve : string -> string -> string.


(** X18: the git-commit-count strategy fails exactly when no integer
    starts the trimmed output of git (the output is empty, or starts with
    a character that is neither a digit nor a sign, or with a sign that no
    digit follows); the message then quotes the trimmed output. *)
Theorem bumpFromGitCommitCount_failure
  (platform : Platform) (fs : files) (projectDir : string)
  (source : option string) (stdout : string) :
  match bumpFromGitCommitCount resolve (Return stdout) platform fs projectDir
          source with
  | Throw message =>
      noLeadingInteger (trim stdout) = true
      /\ message = "git rev-list --count HEAD returned non-numeric value: "
                   ++ dquote ++ trim stdout ++ dquote
  | Return _ => noLeadingInteger (trim stdout) = false
  end.
Proof.
  unfold bumpFromGitCommitCount. cbn [bind].
  pose proof (parseIntDecimal_trim stdout) as H.
  destruct (parseIntDecimal (trim stdout)); [exact H | now split].
Qed.

End OtherStrategyFacts.


Lemma digitsValue_two (a b : ascii) (n : Z) :
  digitsValue 10 0 [a; b] = Some n ->
  forall acc, digitsValue 10 acc [a; b] = Some (acc * 100 + n)%Z.
Proof.
  cbn [digitsValue]. intros H acc.
  destruct (digitValue 10 a) as [x|]; [|discriminate].
  destruct (digitValue 10 b) as [y|]; [|discriminate].
  injection H as <-. f_equal. lia.
Qed.

Lemma string_of_list_ascii_app (a b : list ascii) :
  string_of_list_ascii (a ++ b)
  = string_of_list_ascii a ++ string_of_list_ascii b.
Proof.
  induction a as [|c a IH]; simpl; [reflexivity | now rewrite IH].
Qed.

(** A number below 100, padded to two characters, is two digits. *)
Lemma padStart_two_digits (n : Z) :
  (0 <= n < 100)%Z ->
  exists a b,
    padStart 2 "0" (integerToString n) = string_of_list_ascii [a; b]
    /\ isDigit a = true /\ isDigit b = true
    /\ digitsValue 10 0 [a; b] = Some n.
Proof.
  intros Hn. remember (Z.to_nat n) as k eqn:Ek.
  assert (Hk : (k < 100)%nat) by lia.
  assert (En : n = Z.of_nat k) by lia. subst n. clear Ek Hn.
  do 100 (destruct k as [|k];
          [do 2 eexists; repeat split; vm_compute; reflexivity|]).
  lia.
Qed.

Lemma generateTimestamp_calendarDate (now : UTCDate) :
  calendarDate now ->
  generateTimestamp now = Some (timestampNumber now).
Proof.
  intros (Hy & Hm & Hd & Hh & Hmin).
  unfold generateTimestamp, timestampText. cbv zeta.
  destruct (padStart_two_digits (utcMonth now + 1)) as (m1 & m2 & -> & ? & ? & Vm);
    [lia|].
  destruct (padStart_two_digits (utcDate now)) as (d1 & d2 & -> & ? & ? & Vd);
    [lia|].
  destruct (padStart_two_digits (utcHours now)) as (h1 & h2 & -> & ? & ? & Vh);
    [lia|].
  destruct (padStart_two_digits (utcMinutes now)) as (n1 & n2 & -> & ? & ? & Vn);
    [lia|].
  destruct (integerChars_natural (utcFullYear now) Hy) as (Hne & Hall & Vy).
  rewrite <- (string_of_list_ascii_of_string (integerToString (utcFullYear now))).
  fold (integerChars (utcFullYear now)).
  set (tail := [m1; m2; d1; d2; h1; h2; n1; n2]).
  replace (string_of_list_ascii (integerChars (utcFullYear now)) ++
           string_of_list_ascii [m1; m2] ++ string_of_list_ascii [d1; d2] ++
           string_of_list_ascii [h1; h2] ++ string_of_list_ascii [n1; n2])
    with (string_of_list_ascii (integerChars (utcFullYear now) ++ tail) ++ "").
  2:{ rewrite append_nil_r, string_of_list_ascii_app. reflexivity. }
  apply parseIntDecimal_digits.
  - destruct (integerChars (utcFullYear now)); [contradiction | discriminate].
  - rewrite forallb_app, Hall. subst tail. cbn [forallb].
    repeat match goal with H : isDigit _ = true |- _ => rewrite H; clear H end.
    reflexivity.
  - rewrite digitsValue_app, Vy. subst tail.
    change [m1; m2; d1; d2; h1; h2; n1; n2]
      with ([m1; m2] ++ [d1; d2] ++ [h1; h2] ++ [n1; n2])%list.
    rewrite digitsValue_app, (digitsValue_two _ _ _ Vm).
    rewrite digitsValue_app, (digitsValue_two _ _ _ Vd).
    rewrite digitsValue_app, (digitsValue_two _ _ _ Vh).
    rewrite (digitsValue_two _ _ _ Vn).
    unfold timestampNumber. f_equal. lia.
  - reflexivity.
Qed.

(** X19: for a date in a year that is not negative, the timestamp is the
    number [YYYYMMDDHHmm]: the year times 10^8, plus the month (counted
    from 1) times 10^6, the day times 10^4, the hour times 100 and the
    minute. *)
Theorem generateTimestamp_number (now : UTCDate) :
  calendarDate now ->
  generateTimestamp now = Some (timestampNumber now).
Proof. now apply generateTimestamp_calendarDate. Qed.

Lemma generateTimestamp_number_witness :
  calendarDate exampleDate
  /\ generateTimestamp exampleDate = Some 202406151430%Z.
Proof.
  assert (H : calendarDate exampleDate) by (unfold calendarDate; simpl; lia).
  split; [exact H|]. exact (generateTimestamp_number exampleDate H).
Defined.

(** X20: timestamps are ordered as the dates they come from: of two dates
    at least a minute apart, the later one gets the greater number. *)
Theorem generateTimestamp_ordered (a b : UTCDate) :
  calendarDate a -> calendarDate b -> dateBefore a b ->
  exists x y,
    generateTimestamp a = Some x /\ generateTimestamp b = Some y /\ (x < y)%Z.
Proof.
  intros Ha Hb Hab.
  exists (timestampNumber a), (timestampNumber b).
  split; [now apply generateTimestamp_calendarDate|].
  split; [now apply generateTimestamp_calendarDate|].
  unfold calendarDate, dateBefore, timestampNumber in *.
  destruct a as [ya ma da ha na], b as [yb mb db hb nb].
  cbn [utcFullYear utcMonth utcDate utcHours utcMinutes] in *. lia.
Qed.

Lemma generateTimestamp_ordered_witness :
  calendarDate lastMinuteOf2024 /\ calendarDate firstMinuteOf2025
  /\ dateBefore lastMinuteOf2024 firstMinuteOf2025
  /\ exists x y,
      generateTimestamp lastMinuteOf2024 = Some x
      /\ generateTimestamp firstMinuteOf2025 = Some y /\ (x < y)%Z.
Proof.
  assert (Ha : calendarDate lastMinuteOf2024)
    by (unfold calendarDate; simpl; lia).
  assert (Hb : calendarDate firstMinuteOf2025)
    by (unfold calendarDate; simpl; lia).
  assert (Hab : dateBefore lastMinuteOf2024 firstMinuteOf2025)
    by (unfold dateBefore; simpl; lia).
  split; [exact Ha|]. split; [exact Hb|]. split; [exact Hab|].
  exact (generateTimestamp_ordered lastMinuteOf2024 firstMinuteOf2025
           Ha Hb Hab).
Defined.

Section TimestampStrategy.

Variable resolve : string -> string -> string.

(** X21: on a date in a year that is not negative the timestamp strategy
    returns the number [YYYYMMDDHHmm] with a previous value of 0 and writes
    it, encoded for the platform, best effort; from the year 22 on that
    number is above 2^31 - 1, on Android too, where it is written as the
    version code. *)
Theorem bumpFromTimestamp_result
  (now : UTCDate) (platform : Platform) (fs : files) (projectDir : string)
  (source : option string) :
  calendarDate now ->
  bumpFromTimestamp resolve now platform fs projectDir source
  = Some ({| previousValue := 0; newValue := timestampNumber now;
             field := platformField platform; bump_version := None |},
          writeVersionToAppJson resolve fs projectDir source
            (platformField platform)
            (encodeBuildNumber platform (timestampNumber now)) None)
  /\ ((22 <= utcFullYear now)%Z -> (2147483647 < timestampNumber now)%Z).
Proof.
  intros Hnow. split.
  - unfold bumpFromTimestamp. now rewrite (generateTimestamp_calendarDate now Hnow).
  - unfold calendarDate, timestampNumber in *. lia.
Qed.

End TimestampStrategy.

Lemma bumpFromTimestamp_result_witness :
  calendarDate exampleDate
  /\ bumpFromTimestamp joinPath exampleDate android
       (projectWith (exampleAppJson (JStr "41"))) "/app" None
     = Some ({| previousValue := 0; newValue := 202406151430;
                field := "expo.android.versionCode"; bump_version := None |},
             writeVersionToAppJson joinPath (projectWith (exampleAppJson (JStr "41")))
               "/app" None "expo.android.versionCode"
               (JNum (JInt 202406151430)) None)
  /\ (2147483647 < 202406151430)%Z.
Proof.
  assert (H : calendarDate exampleDate) by (unfold calendarDate; simpl; lia).
  split; [exact H|].
  destruct (bumpFromTimestamp_result joinPath exampleDate android
              (projectWith (exampleAppJson (JStr "41"))) "/app" None H) as [Hres Hbig].
  split; [exact Hres|]. apply Hbig. simpl. lia.
Defined.

(** ** Where the config comes from *)

Section ConfigOrigin.

Variable resolve : string -> string -> string.
Variable expoConfig : outcome json.

(** X22: without a source, a config that [resolveExpoConfig] returns is
    the content of [app.json] or, when [app.json] cannot be read and a
    dynamic config file exists, the resolved dynamic config under the one
    key [expo], nothing else; the path to write is [app.json] in both
    cases. *)
Theorem resolveExpoConfig_origin
  (fs : files) (projectDir : string) (source : option string)
  (config : obj json) (writePath : string) :
  truthy_opt source = false ->
  resolveExpoConfig resolve expoConfig fs projectDir source
  = Return (config, writePath) ->
  writePath = resolve projectDir "app.json"
  /\ (readJson fs (resolve projectDir "app.json") = Return config
      \/ exists message resolved,
          readJson fs (resolve projectDir "app.json") = Throw message
          /\ existsSync fs (resolve projectDir "app.config.js")
             || existsSync fs (resolve projectDir "app.config.ts") = true
          /\ expoConfig = Return resolved
          /\ config = [("expo", resolved)]).
Proof.
  intros Hsource. unfold resolveExpoConfig. rewrite Hsource.
  destruct (readJson fs (resolve projectDir "app.json")) as [doc|message] eqn:Hread.
  - intros [= <- <-]. split; [reflexivity | now left].
  - destruct (existsSync fs _ || existsSync fs _) eqn:Hdyn; [|discriminate].
    destruct expoConfig as [resolved|m']; [|discriminate].
    intros [= <- <-]. split; [reflexivity|].
    right. now exists message, resolved.
Qed.

End ConfigOrigin.

Lemma resolveExpoConfig_origin_witness :
  truthy_opt None = false
  /\ resolveExpoConfig joinPath (Return dynamicExpoConfig) dynamicProject
       "/app" None
     = Return ([("expo", dynamicExpoConfig)], "/app/app.json")
  /\ "/app/app.json" = joinPath "/app" "app.json"
  /\ (readJson dynamicProject (joinPath "/app" "app.json")
      = Return [("expo", dynamicExpoConfig)]
      \/ exists message resolved,
          readJson dynamicProject (joinPath "/app" "app.json") = Throw message
          /\ existsSync dynamicProject (joinPath "/app" "app.config.js")
             || existsSync dynamicProject (joinPath "/app" "app.config.ts")
             = true
          /\ Return dynamicExpoConfig = Return resolved
          /\ [("expo", dynamicExpoConfig)] = [("expo", resolved)]).
Proof.
  split; [reflexivity|]. split; [reflexivity|].
  exact (resolveExpoConfig_origin joinPath (Return dynamicExpoConfig)
           dynamicProject "/app" None [("expo", dynamicExpoConfig)]
           "/app/app.json" eq_refl eq_refl).
Defined.

(** ** The fingerprint: its key, its computation, the saved marker *)

Lemma cacheKey_injective (p q : Platform) (h h' : string) :
  cacheKey (platformName p) h = cacheKey (platformName q) h' ->
  p = q /\ h = h'.
Proof.
  unfold cacheKey. destruct p, q; cbn; intros [= H]; auto.
Qed.

(** X23: a marker stored for one platform and one fingerprint is a hit for
    that platform and that fingerprint only: with a cache that holds the key
    of [(p, h)], the restore for [(q, h')] answers true exactly when
    [q = p] and [h' = h]. *)
Theorem restoreFingerprintCache_hit_same_build
  (dir : string) (p q : Platform) (h h' : string) :
  restoreFingerprintCache dir (cacheHolding (cacheKey (platformName p) h))
    (platformName q) h' = Return true
  <-> q = p /\ h' = h.
Proof.
  unfold restoreFingerprintCache, cacheHolding. cbn [mkdirSync restoreCache bind].
  destruct (cacheKey (platformName q) h' =? cacheKey (platformName p) h) eqn:E.
  - apply String.eqb_eq in E. apply cacheKey_injective in E.
    split; [intros _; exact E|]. intros _.
    unfold truthy_opt, truthy, cacheKey. now destruct q.
  - apply String.eqb_neq in E. cbn [truthy_opt].
    split; [discriminate|]. intros [-> ->]. now contradiction E.
Qed.

Section SaveFingerprintFacts.

Variables (dir markerPath nowISOString : string).

(** [saveFingerprintCache] throws exactly when the marker directory
    cannot be created or the marker cannot be written, with the error of
    that call; an error of [saveCache] never surfaces. *)
Lemma saveFingerprintCache_throws
  (services : MarkerServices) (platform h message : string) :
  saveFingerprintCache dir markerPath nowISOString services platform h
  = Throw message
  <-> mkdirSync (cacheServices services) dir = Throw message
      \/ (mkdirSync (cacheServices services) dir = Return tt
          /\ writeFileSync services markerPath
               [("hash", JStr h); ("timestamp", JStr nowISOString);
                ("platform", JStr platform)] = Throw message).
Proof.
  unfold saveFingerprintCache. cbv zeta.
  destruct (mkdirSync (cacheServices services) dir) as [[]|m]; cbn [bind].
  - destruct (writeFileSync services markerPath _) as [[]|m]; cbn [bind].
    + destruct (saveCache services [dir] _); split;
        try discriminate; intros [H|[_ H]]; discriminate.
    + split; [intros [= <-]; now right|].
      intros [H|[_ H]]; [discriminate | exact H].
  - split; [intros [= <-]; now left|].
    intros [H|[H _]]; [exact H | discriminate].
Qed.

End SaveFingerprintFacts.

Section ComputeFingerprintFacts.

Variable runFingerprint : string -> string -> outcome string.
Variable JSON_parse : string -> outcome json.

(** X24: a fingerprint that [computeFingerprint] returns is never empty:
    it is the string found under [hash] in the output of the tool, parsed
    after trimming, and the count of sources is the length of the array
    under [sources], or 0 when there is no array there. *)
Theorem computeFingerprint_returns
  (platform : Platform) (projectDir : string) (result : FingerprintResult) :
  computeFingerprint runFingerprint JSON_parse platform projectDir
  = Return result ->
  hash result <> ""
  /\ exists stdout parsed,
      runFingerprint (platformName platform) projectDir = Return stdout
      /\ JSON_parse (trim stdout) = Return parsed
      /\ property parsed "hash" = Some (JStr (hash result))
      /\ sourceCount result
         = match property parsed "sources" with
           | Some (JArr sources) => List.length sources
           | _ => 0%nat
           end.
Proof.
  unfold computeFingerprint.
  destruct (runFingerprint (platformName platform) projectDir)
    as [stdout|m] eqn:Hrun; cbn [bind]; [|discriminate].
  destruct (JSON_parse (trim stdout)) as [parsed|m] eqn:Hparse; [|discriminate].
  assert (Hcase :
    match property parsed "hash" with
    | Some (JStr h0) =>
        if truthy h0
        then Return {| hash := h0;
                       sourceCount :=
                         match property parsed "sources" with
                         | Some (JArr sources) => List.length sources
                         | _ => 0%nat
                         end |}
        else Throw invalidFingerprint
    | _ => Throw invalidFingerprint
    end = Return result ->
    hash result <> ""
    /\ exists stdout0 parsed0,
        Return stdout = Return stdout0
        /\ JSON_parse (trim stdout0) = Return parsed0
        /\ property parsed0 "hash" = Some (JStr (hash result))
        /\ sourceCount result
           = match property parsed0 "sources" with
             | Some (JArr sources) => List.length sources
             | _ => 0%nat
             end).
  { destruct (property parsed "hash") as [[| | |h0| |]|] eqn:Hhash;
      try discriminate.
    destruct (truthy h0) eqn:Ht; [|discriminate].
    intros [= <-]. cbn [hash sourceCount]. split.
    - intros ->. discriminate.
    - exists stdout, parsed. now rewrite Hhash. }
  clear Hrun Hparse.
  destruct parsed; [discriminate | exact Hcase ..].
Qed.

End ComputeFingerprintFacts.

Lemma computeFingerprint_returns_witness :
  computeFingerprint (fun _ _ => Return "{...}")
    (parseOnly "{...}"
       (JObj [("hash", JStr "abc"); ("sources", JArr [JNull; JNull])]))
    ios "/app"
  = Return {| hash := "abc"; sourceCount := 2 |}
  /\ "abc" <> "".
Proof.
  split; [reflexivity|].
  exact (proj1 (computeFingerprint_returns (fun _ _ => Return "{...}")
                  (parseOnly "{...}"
                     (JObj [("hash", JStr "abc");
                            ("sources", JArr [JNull; JNull])]))
                  ios "/app" {| hash := "abc"; sourceCount := 2 |} eq_refl)).
Defined.

(** ** The environment input *)


Section EnvironmentFacts.

Variable JSON_parse : string -> outcome json.



End EnvironmentFacts.



(** ** The version code of [build.gradle] *)

Lemma takeWhile_dropWhile {A : Type} (f : A -> bool) (l : list A) :
  l = (takeWhile f l ++ dropWhile f l)%list.
Proof.
  induction l as [|x l IH]; simpl; [reflexivity|].
  destruct (f x); simpl; [now rewrite <- IH | reflexivity].
Qed.
















(** ** The version bump as the pipelines run it *)

Section VersionBumpFacts.

Variable resolve : string -> string -> string.
Variable expoConfig : outcome json.
Variable gitDescribe : string -> outcome string.
Variable gitRevListCount : outcome string.
Variable now : UTCDate.
Variable pathJoin : list string -> string.
Variable plutil : list string -> outcome unit.

Lemma pipelineVersionBump_merge
  (config : AppBuildConfig) (inputs : ActionInputs) (resolved : ResolvedConfig)
  (fs : files) (buildGradle : textFile) (iosDirectory : directory)
  (projectDir : string) :
  mergeActionInputs config inputs = Return resolved ->
  pipelineVersionBump resolve expoConfig gitDescribe gitRevListCount now
    pathJoin plutil resolved fs buildGradle iosDirectory projectDir
  = if in_versionBump inputs then
      Some (bumpVersion resolve expoConfig gitDescribe gitRevListCount now
              pathJoin plutil (in_platform inputs) fs buildGradle
              iosDirectory projectDir
              match version config with
              | Some v => Some (nullish (source v) "app.json")
              | None => None
              end
              (in_versionStrategy inputs) (in_versionGitTagPattern inputs))
    else None.
Proof.
  unfold mergeActionInputs. cbv zeta.
  destruct (getProfileConfig config _ (in_platform inputs)) as [pc|m];
    cbn [bind]; [|discriminate].
  unfold pipelineVersionBump.
  destruct (in_platform inputs); intros [= <-];
    cbn [rc_versionBump rc_platform rc_versionConfig rc_versionStrategy
         rc_versionGitTagPattern];
    destruct (in_versionBump inputs); try reflexivity;
    destruct (version config); reflexivity.
Qed.

(** X28: the version bump of the pipelines is decided by the action inputs
    and by the [source] of the config file alone: it runs exactly when the
    [version-bump] input is set, with the strategy and the tag pattern of
    the inputs; the [autoIncrement], [strategy] and [gitTagPattern] the
    config file gives under [version] are not used. *)
Theorem pipelineVersionBump_of_inputs
  (config : AppBuildConfig) (inputs : ActionInputs) (resolved : ResolvedConfig)
  (fs : files) (buildGradle : textFile) (iosDirectory : directory)
  (projectDir : string) :
  mergeActionInputs config inputs = Return resolved ->
  pipelineVersionBump resolve expoConfig gitDescribe gitRevListCount now
    pathJoin plutil resolved fs buildGradle iosDirectory projectDir
  = if in_versionBump inputs then
      Some (bumpVersion resolve expoConfig gitDescribe gitRevListCount now
              pathJoin plutil (in_platform inputs) fs buildGradle
              iosDirectory projectDir
              match version config with
              | Some v => Some (nullish (source v) "app.json")
              | None => None
              end
              (in_versionStrategy inputs) (in_versionGitTagPattern inputs))
    else None.
Proof. now apply pipelineVersionBump_merge. Qed.

Lemma bumpVersion_unknown
  (platform : Platform) (fs : files) (buildGradle : textFile)
  (iosDirectory : directory) (projectDir : string)
  (source gitTagPattern : option string) (name : string) :
  knownStrategy name = false ->
  bumpVersion resolve expoConfig gitDescribe gitRevListCount now pathJoin
    plutil platform fs buildGradle iosDirectory projectDir source (Some name)
    gitTagPattern
  = Some (Throw ("Unknown version strategy: " ++ name)).
Proof.
  unfold knownStrategy, bumpVersion. cbn [nullish]. intros H.
  repeat (apply orb_false_elim in H as [H ?]).
  now rewrite H, H0, H1, H2.
Qed.

(** X29: the [version-strategy] input reaches [bumpVersion] unchecked: when
    the version bump is on and the input is a name [bumpVersion] does not
    know (the names are compared as they are, letter case included), the
    version bump of the pipeline throws, naming the strategy, whatever the
    config file says and before any file is read. *)
Theorem pipelineVersionBump_unknown_strategy
  (config : AppBuildConfig) (inputs : ActionInputs) (resolved : ResolvedConfig)
  (fs : files) (buildGradle : textFile) (iosDirectory : directory)
  (projectDir name : string) :
  mergeActionInputs config inputs = Return resolved ->
  in_versionBump inputs = true ->
  in_versionStrategy inputs = Some name ->
  knownStrategy name = false ->
  pipelineVersionBump resolve expoConfig gitDescribe gitRevListCount now
    pathJoin plutil resolved fs buildGradle iosDirectory projectDir
  = Some (Some (Throw ("Unknown version strategy: " ++ name))).
Proof.
  intros Hmerge Hbump Hname Hunknown.
  rewrite (pipelineVersionBump_merge config inputs resolved fs buildGradle
             iosDirectory projectDir Hmerge).
  rewrite Hbump, Hname. now rewrite bumpVersion_unknown.
Qed.


End VersionBumpFacts.

Lemma pipelineVersionBump_of_inputs_witness :
  exists resolved,
    mergeActionInputs gitTagConfig (bumpInputs None) = Return resolved
    /\ pipelineVersionBump joinPath noExpo noGit (Throw "no git") exampleDate
         slashJoin plutilSucceeds resolved
         (projectWith (exampleAppJson (JStr "41")))
         (TextFile exampleBuildGradle) NoDirectory "/app"
       = Some (bumpVersion joinPath noExpo noGit (Throw "no git") exampleDate
                 slashJoin plutilSucceeds android
                 (projectWith (exampleAppJson (JStr "41")))
                 (TextFile exampleBuildGradle) NoDirectory "/app"
                 (Some "app.json") None None).
Proof.
  eexists. split; [reflexivity|].
  exact (pipelineVersionBump_of_inputs joinPath noExpo noGit
           (Throw "no git") exampleDate slashJoin plutilSucceeds
           gitTagConfig (bumpInputs None) _
           (projectWith (exampleAppJson (JStr "41")))
           (TextFile exampleBuildGradle) NoDirectory "/app" eq_refl).
Defined.

Lemma pipelineVersionBump_unknown_strategy_witness :
  exists resolved,
    mergeActionInputs gitTagConfig (bumpInputs (Some "gittag"))
    = Return resolved
    /\ knownStrategy "gittag" = false
    /\ pipelineVersionBump joinPath noExpo noGit (Throw "no git") exampleDate
         slashJoin plutilSucceeds resolved
         (projectWith (exampleAppJson (JStr "41")))
         (TextFile exampleBuildGradle) NoDirectory "/app"
       = Some (Some (Throw "Unknown version strategy: gittag")).
Proof.
  eexists. split; [reflexivity|]. split; [reflexivity|].
  exact (pipelineVersionBump_unknown_strategy joinPath noExpo noGit
           (Throw "no git") exampleDate slashJoin plutilSucceeds
           gitTagConfig (bumpInputs (Some "gittag")) _
           (projectWith (exampleAppJson (JStr "41")))
           (TextFile exampleBuildGradle) NoDirectory "/app" "gittag"
           eq_refl eq_refl eq_refl eq_refl).
Defined.

